(** * ResearchMemory: a shallow embedding of [src/core/memory.py]

    The development follows the class [ResearchMemory]: the keyword
    classifier, the pattern recorder and its learner, the suggestion engine,
    the two-level result cache (in-memory dict and one JSON file per
    fingerprint) and the insight aggregator.

    Modelling conventions.
    - A Python [str] is a Rocq [string], read as the UTF-8 bytes of the text.
      The keywords of the classifier are ASCII. [str.lower] changes no ASCII
      character but the letters A to Z, and only two code points outside
      ASCII have a lower-case form with an ASCII letter in it: U+212A gives
      k, which no keyword contains, and U+0130 gives i followed by a
      combining mark, which no keyword continues. Lower-casing the ASCII
      letters therefore decides the classification.
    - Python floats ([response_time], [time.time()], the confidence ratio)
      are exact rationals [Q], the literal 0.6 is 6/10, and comparisons are
      the exact ones.
    - What the methods print is left out.
    - Python ints that only count ([total_queries], [hits], ...) are [nat].
    - [self.cache] and the directory [cache_dir] are finite maps from the
      fingerprint to the cached record; for a file, the record is what
      [json.load] reads from it. [cache_result] is modelled as writing the
      record as it is, which is what [json.load] returns later for a payload
      that JSON carries unchanged; JSON turns tuples into lists and dict
      keys into strings, and [json.dump] raises on other payloads, after
      [self.cache] is set. What is stated about a result read from a file
      is therefore stated about the record of the file.
    - Clock reads ([time.time()], [datetime.now()]) are explicit arguments. *)

From Stdlib Require Import Ascii String QArith Qfield Lqa.
From stdpp Require Import gmap strings list fin_maps sorting.

Set Default Proof Using "Type".

Local Open Scope string_scope.
Local Open Scope list_scope.

(** ** Strings *)

Module Str.

(** [c.lower()] for one character. *)
Definition lower_ascii (c : ascii) : ascii :=
  let n := N_of_ascii c in
  if ((65 <=? n) && (n <=? 90))%N then ascii_of_N (n + 32) else c.

(** [s.lower()]. *)
Fixpoint lower (s : string) : string :=
  match s with
  | EmptyString => EmptyString
  | String c s' => String (lower_ascii c) (lower s')
  end.

(** [w in h] on strings: [w] occurs in [h] as a contiguous substring. *)
Fixpoint contains (w h : string) : bool :=
  String.prefix w h ||
  match h with
  | EmptyString => false
  | String _ h' => contains w h'
  end.

(** The relation [contains] decides. *)
Definition substring_of (w h : string) : Prop :=
  exists a b, h = a +:+ w +:+ b.

End Str.

(** ** The classifier *)

(** The closed enumeration of query types, and the strings the code uses
    for them. *)
Inductive QueryType : Type :=
| comprehensive_analysis
| technical_implementation
| conceptual_explanation
| recommendation
| general_research.

Definition query_type_name (t : QueryType) : string :=
  match t with
  | comprehensive_analysis => "comprehensive_analysis"
  | technical_implementation => "technical_implementation"
  | conceptual_explanation => "conceptual_explanation"
  | recommendation => "recommendation"
  | general_research => "general_research"
  end.

(** [any(word in query_lower for word in words)]. *)
Definition any_in (words : list string) (query_lower : string) : bool :=
  existsb (fun word => Str.contains word query_lower) words.

(** [ResearchMemory._classify_query]. *)
Definition _classify_query (query : string) : string :=
  let query_lower := Str.lower query in
  if any_in ["landscape"; "comprehensive"; "analyze"; "comparison"] query_lower
  then "comprehensive_analysis"
  else if any_in ["how to"; "implement"; "code"; "example"] query_lower
  then "technical_implementation"
  else if any_in ["what is"; "define"; "explain"] query_lower
  then "conceptual_explanation"
  else if any_in ["best"; "recommend"; "should"] query_lower
  then "recommendation"
  else "general_research".

(** The classification as the specification words it: the query types in
    priority order with their keyword sets; the first type one of whose
    keywords occurs in the lower-cased query wins, and [general_research] is
    the default. *)
Definition keyword_table : list (QueryType * list string) :=
  [ (comprehensive_analysis, ["landscape"; "comprehensive"; "analyze"; "comparison"]);
    (technical_implementation, ["how to"; "implement"; "code"; "example"]);
    (conceptual_explanation, ["what is"; "define"; "explain"]);
    (recommendation, ["best"; "recommend"; "should"]) ].

Definition matches (query : string) (words : list string) : Prop :=
  exists w, In w words /\ Str.substring_of w (Str.lower query).

Inductive classifies (query : string) : list (QueryType * list string) -> QueryType -> Prop :=
| classifies_default : classifies query [] general_research
| classifies_here t words rest :
    matches query words -> classifies query ((t, words) :: rest) t
| classifies_later t words rest t' :
    ~ matches query words -> classifies query rest t' ->
    classifies query ((t, words) :: rest) t'.

(** ** Python dicts whose iteration order is observed

    A [dict] keeps its keys in insertion order; assigning to a key that is
    present keeps its position. *)

Module Dict.

Section Ops.
Context {V : Type}.

  (** [k in d]. *)
Fixpoint mem (k : string) (d : list (string * V)) : bool :=
    match d with
    | [] => false
    | (k', _) :: d' => String.eqb k k' || mem k d'
    end.

  (** [d.get(k, default)]. *)
Fixpoint get (k : string) (default : V) (d : list (string * V)) : V :=
    match d with
    | [] => default
    | (k', v) :: d' => if String.eqb k k' then v else get k default d'
    end.

  (** [d[k] = v]. *)
Fixpoint set (k : string) (v : V) (d : list (string * V)) : list (string * V) :=
    match d with
    | [] => [(k, v)]
    | (k', v') :: d' =>
        if String.eqb k k' then (k', v) :: d' else (k', v') :: set k v d'
    end.

  (** [list(d)]: the keys in iteration order. *)
Definition keys (d : list (string * V)) : list string := map fst d.
End Ops.

End Dict.

(** ** Data model *)

(** Natural numbers and integers as rationals. *)
Definition Qnat (n : nat) : Q := inject_Z (Z.of_nat n).

(** [x < y] on rationals, as a boolean. *)
Definition Qltb (x y : Q) : bool := negb (Qle_bool y x).

(** One pattern record: the dict built by [remember_query]. *)
Module Pattern.
Record t : Type := mk {
    query : string;
    query_type : string;
    method : string;
    success : bool;
    response_time : Q;
    citations_count : nat;
    timestamp : string
  }.
End Pattern.

(** One cache record: the dict built by [cache_result]. *)
Module Cached.
Record t (Result : Type) : Type := mk {
    query : string;
    result : Result;
    timestamp : Q;
    hits : nat
  }.
Arguments mk {Result} _ _ _ _.
Arguments query {Result} _.
Arguments result {Result} _.
Arguments timestamp {Result} _.
Arguments hits {Result} _.

  (** [cached["hits"] += 1]. *)
Definition hit {Result : Type} (c : t Result) : t Result :=
    mk (query c) (result c) (timestamp c) (hits c + 1).
End Cached.

(** [self.stats]. *)
Record Stats : Type := mkStats {
  total_queries : nat;
  cache_hits : nat;
  patterns_learned : nat;
  avg_response_time : Q
}.

(** The value [_load_stats] returns when there is no stats file. *)
Definition fresh_stats : Stats := mkStats 0 0 0 0.

(** The entries [{"count": ..., "avg_time": ...}] of [method_scores] and
    [best_combos]. *)
Record Score : Type := mkScore {
  count : nat;
  avg_time : Q
}.

(** The values of the dict [get_insights] returns. The two formatted
    fields carry the number that the format string renders. *)
Inductive InsightValue : Type :=
| VText (s : string)
| VInt (n : nat)
| VPercent (q : Q)
| VSeconds (q : Q)
| VCounts (d : list (string * nat))
| VCombos (d : list (string * Score)).

(** ** The memory object *)

Section ResearchMemory.

(** The payload type of cached results ([Any] in the source). *)
Context {Result : Type}.

(** [hashlib.md5(query.encode()).hexdigest()], the fingerprint of a query. *)
Variable md5_hexdigest : string -> string.

(** The fields of [self], followed by the three durable stores:
    [patterns.json], [stats.json] and the files of [cache_dir], one per
    fingerprint. *)
Record Memory : Type := mkMemory {
  patterns : list Pattern.t;
  cache : gmap string (Cached.t Result);
  stats : Stats;
  patterns_file : option (list Pattern.t);
  stats_file : option Stats;
  cache_dir : gmap string (Cached.t Result)
}.

(** A memory constructed over empty directories. *)
Definition fresh : Memory := mkMemory [] ∅ fresh_stats None None ∅.

Definition set_patterns (ps : list Pattern.t) (self : Memory) : Memory :=
  mkMemory ps (cache self) (stats self)
           (patterns_file self) (stats_file self) (cache_dir self).

Definition set_cache (c : gmap string (Cached.t Result)) (self : Memory) : Memory :=
  mkMemory (patterns self) c (stats self)
           (patterns_file self) (stats_file self) (cache_dir self).

Definition set_stats (st : Stats) (self : Memory) : Memory :=
  mkMemory (patterns self) (cache self) st
           (patterns_file self) (stats_file self) (cache_dir self).

Definition set_cache_dir (d : gmap string (Cached.t Result)) (self : Memory) : Memory :=
  mkMemory (patterns self) (cache self) (stats self)
           (patterns_file self) (stats_file self) d.

(** [_save_patterns]. *)
Definition _save_patterns (self : Memory) : Memory :=
  mkMemory (patterns self) (cache self) (stats self)
           (Some (patterns self)) (stats_file self) (cache_dir self).

(** [_save_stats]. *)
Definition _save_stats (self : Memory) : Memory :=
  mkMemory (patterns self) (cache self) (stats self)
           (patterns_file self) (Some (stats self)) (cache_dir self).

(** *** Recorder and learner *)

(** The comprehension of [_learn_from_pattern]: successful records of the
    given type and method. *)
Definition same_type_method (query_type method : string) (p : Pattern.t) : bool :=
  String.eqb (Pattern.query_type p) query_type
  && String.eqb (Pattern.method p) method
  && Pattern.success p.

(** [_learn_from_pattern]. *)
Definition _learn_from_pattern (self : Memory) (pattern : Pattern.t) : Memory :=
  let query_type := Pattern.query_type pattern in
  let method := Pattern.method pattern in
  let similar_patterns :=
    List.filter (same_type_method query_type method) (patterns self) in
  if (3 <=? length similar_patterns)%nat then
    let st := stats self in
    set_stats (mkStats (total_queries st) (cache_hits st)
                       (patterns_learned st + 1) (avg_response_time st)) self
  else self.

(** The update of [avg_response_time] in [remember_query]; [total] is
    [total_queries] after its increment. *)
Definition update_avg (avg : Q) (total : nat) (response_time : Q) : Q :=
  if Qeq_bool avg 0 then response_time
  else ((avg * inject_Z (Z.of_nat total - 1) + response_time) / Qnat total)%Q.

(** [remember_query]; [now] is [datetime.now().isoformat()]. *)
Definition remember_query (self : Memory) (query method : string)
    (success : bool) (response_time : Q) (citations_count : nat)
    (now : string) : Memory :=
  let pattern :=
    Pattern.mk query (_classify_query query) method success
               response_time citations_count now in
  let self := set_patterns (patterns self ++ [pattern]) self in
  let st := stats self in
  let total := total_queries st + 1 in
  let self :=
    set_stats (mkStats total (cache_hits st) (patterns_learned st)
                       (update_avg (avg_response_time st) total response_time))
              self in
  let self := if success then _learn_from_pattern self pattern else self in
  if (length (patterns self) mod 5 =? 0)%nat
  then _save_stats (_save_patterns self)
  else self.

(** *** Suggestion engine *)

(** The comprehension of [suggest_method]: successful records of the type. *)
Definition same_type (query_type : string) (p : Pattern.t) : bool :=
  String.eqb (Pattern.query_type p) query_type && Pattern.success p.

(** One round of the counting loop. *)
Definition score_step (method_scores : list (string * Score)) (pattern : Pattern.t)
    : list (string * Score) :=
  let method := Pattern.method pattern in
  let method_scores :=
    if Dict.mem method method_scores then method_scores
    else Dict.set method (mkScore 0 0) method_scores in
  let s := Dict.get method (mkScore 0 0) method_scores in
  let method_scores :=
    Dict.set method (mkScore (count s + 1) (avg_time s)) method_scores in
  let s := Dict.get method (mkScore 0 0) method_scores in
  Dict.set method
    (mkScore (count s) (avg_time s + Pattern.response_time pattern)%Q)
    method_scores.

(** The loop that turns the accumulated times into averages. *)
Definition average_times (scores : list (string * Score)) : list (string * Score) :=
  map (fun kv => (fst kv, mkScore (count (snd kv))
                                  (avg_time (snd kv) / Qnat (count (snd kv)))%Q))
      scores.

(** [max(d, key=lambda m: d[m]["count"])], continued from a current best:
    a later key replaces it only with a strictly larger count. *)
Fixpoint max_by_count_from (best : string) (best_count : nat)
    (d : list (string * Score)) : string :=
  match d with
  | [] => best
  | (k, v) :: d' =>
      if (best_count <? count v)%nat then max_by_count_from k (count v) d'
      else max_by_count_from best best_count d'
  end.

(** [max] raises on an empty dict, rendered as [None]. *)
Definition max_by_count (d : list (string * Score)) : option string :=
  match d with
  | [] => None
  | (k, v) :: d' => Some (max_by_count_from k (count v) d')
  end.

Definition method_scores_of (similar_patterns : list Pattern.t) : list (string * Score) :=
  average_times (fold_left score_step similar_patterns []).

(** [suggest_method]. *)
Definition suggest_method (self : Memory) (query : string) : option string :=
  match patterns self with
  | [] => None
  | _ =>
    let query_type := _classify_query query in
    let similar_patterns := List.filter (same_type query_type) (patterns self) in
    match similar_patterns with
    | [] => None
    | _ =>
      let method_scores := method_scores_of similar_patterns in
      match max_by_count method_scores with
      | None => None
      | Some best_method =>
        let confidence :=
          (Qnat (count (Dict.get best_method (mkScore 0 0) method_scores))
           / Qnat (length similar_patterns))%Q in
        if Qltb (6 # 10) confidence then Some best_method else None
      end
    end
  end.

(** *** Cache store *)

(** [age < 3600] for a record read at time [now]. *)
Definition is_fresh (now : Q) (cached : Cached.t Result) : bool :=
  Qltb (now - Cached.timestamp cached) 3600.

(** [self.stats["cache_hits"] += 1]. *)
Definition count_cache_hit (self : Memory) : Memory :=
  let st := stats self in
  set_stats (mkStats (total_queries st) (cache_hits st + 1)
                     (patterns_learned st) (avg_response_time st)) self.

(** The second half of [get_cached_result]: the file of the fingerprint. *)
Definition get_cached_from_file (self : Memory) (query_hash : string) (now : Q)
    : option Result * Memory :=
  match cache_dir self !! query_hash with
  | Some cached =>
      if is_fresh now cached then
        let self := count_cache_hit self in
        let self := set_cache (<[query_hash := cached]> (cache self)) self in
        (Some (Cached.result cached), self)
      else (None, self)
  | None => (None, self)
  end.

(** [get_cached_result]; [now] is [time.time()]. The record in
    [self.cache] is updated in place on a hit. *)
Definition get_cached_result (self : Memory) (query : string) (now : Q)
    : option Result * Memory :=
  let query_hash := md5_hexdigest query in
  match cache self !! query_hash with
  | Some cached =>
      if is_fresh now cached then
        let self := count_cache_hit self in
        let self :=
          set_cache (<[query_hash := Cached.hit cached]> (cache self)) self in
        (Some (Cached.result cached), self)
      else get_cached_from_file self query_hash now
  | None => get_cached_from_file self query_hash now
  end.

(** [cache_result]; [now] is [time.time()]. *)
Definition cache_result (self : Memory) (query : string) (result : Result)
    (now : Q) : Memory :=
  let query_hash := md5_hexdigest query in
  let cached_data := Cached.mk query result now 0 in
  let self := set_cache (<[query_hash := cached_data]> (cache self)) self in
  set_cache_dir (<[query_hash := cached_data]> (cache_dir self)) self.

(** *** Cleanup *)

(** [age > max_age_hours] for a file read at time [now]. *)
Definition is_old (max_age_hours : Z) (now : Q) (data : Cached.t Result) : bool :=
  Qltb (inject_Z max_age_hours) ((now - Cached.timestamp data) / 3600).

(** One round of the loop of [cleanup_volatile] on the file named by
    [name], whose content is [data]; [clock name] is the value of
    [time.time()] in that round. *)
Definition cleanup_step (max_age_hours : Z) (clock : string -> Q)
    (acc : gmap string (Cached.t Result) * nat)
    (file : string * Cached.t Result) : gmap string (Cached.t Result) * nat :=
  let '(dir, cleaned) := acc in
  let '(name, data) := file in
  if is_old max_age_hours (clock name) data
  then (delete name dir, cleaned + 1)
  else (dir, cleaned).

(** [cleanup_volatile]: the files are visited in the order the directory
    lists them. *)
Definition cleanup_volatile (self : Memory) (max_age_hours : Z)
    (clock : string -> Q) : nat * Memory :=
  let '(dir, cleaned) :=
    foldl (cleanup_step max_age_hours clock) (cache_dir self, 0)
          (map_to_list (cache_dir self)) in
  (cleaned, set_cache_dir dir self).

(** *** Insights *)

(** [query_types[qt] = query_types.get(qt, 0) + 1]. *)
Definition tally (k : string) (d : list (string * nat)) : list (string * nat) :=
  Dict.set k (Dict.get k 0 d + 1) d.

(** The first loop of [get_insights]. *)
Definition insight_step (acc : list (string * nat) * list (string * nat))
    (pattern : Pattern.t) : list (string * nat) * list (string * nat) :=
  let '(query_types, method_preferences) := acc in
  let query_types := tally (Pattern.query_type pattern) query_types in
  if Pattern.success pattern
  then (query_types, tally (Pattern.method pattern) method_preferences)
  else (query_types, method_preferences).

(** The key of [best_combos]. *)
Definition combo_key (pattern : Pattern.t) : string :=
  Pattern.query_type pattern +:+ " → " +:+ Pattern.method pattern.

(** The second loop of [get_insights]. *)
Definition combo_step (best_combos : list (string * Score)) (pattern : Pattern.t)
    : list (string * Score) :=
  if Pattern.success pattern then
    let combo := combo_key pattern in
    let best_combos :=
      if Dict.mem combo best_combos then best_combos
      else Dict.set combo (mkScore 0 0) best_combos in
    let s := Dict.get combo (mkScore 0 0) best_combos in
    let best_combos :=
      Dict.set combo (mkScore (count s + 1) (avg_time s)) best_combos in
    let s := Dict.get combo (mkScore 0 0) best_combos in
    Dict.set combo
      (mkScore (count s) (avg_time s + Pattern.response_time pattern)%Q)
      best_combos
  else best_combos.

(** [sorted(items, key=lambda x: x[1]["count"], reverse=True)]: a stable
    sort by decreasing count. *)
Fixpoint insert_by_count (x : string * Score) (l : list (string * Score))
    : list (string * Score) :=
  match l with
  | [] => [x]
  | y :: l' =>
      if (count (snd x) <? count (snd y))%nat then y :: insert_by_count x l'
      else x :: y :: l'
  end.

Definition sorted_by_count (l : list (string * Score)) : list (string * Score) :=
  foldr insert_by_count [] l.

(** [get_insights]. *)
Definition get_insights (self : Memory) : list (string * InsightValue) :=
  match patterns self with
  | [] => [("message", VText "No patterns learned yet")]
  | _ =>
    let '(query_types, method_preferences) :=
      fold_left insight_step (patterns self) ([], []) in
    let best_combos :=
      average_times (fold_left combo_step (patterns self) []) in
    let st := stats self in
    [ ("total_patterns", VInt (length (patterns self)));
      ("patterns_learned", VInt (patterns_learned st));
      ("cache_hit_rate",
        VPercent (Qnat (cache_hits st) / Qnat (Nat.max 1 (total_queries st)) * 100)%Q);
      ("query_types", VCounts query_types);
      ("method_preferences", VCounts method_preferences);
      ("best_combinations", VCombos (take 3 (sorted_by_count best_combos)));
      ("avg_response_time", VSeconds (avg_response_time st)) ]
  end.

(** *** Sequences of calls *)

(** One call of the caller-facing surface, with the clock values it reads. *)
Inductive Call : Type :=
| CallRemember (query method : string) (success : bool) (response_time : Q)
               (citations_count : nat) (now : string)
| CallSuggest (query : string)
| CallGetCached (query : string) (now : Q)
| CallCache (query : string) (result : Result) (now : Q)
| CallInsights
| CallCleanup (max_age_hours : Z) (clock : string -> Q).

(** The state after one call. *)
Definition perform (self : Memory) (c : Call) : Memory :=
  match c with
  | CallRemember query method success response_time citations_count now =>
      remember_query self query method success response_time citations_count now
  | CallSuggest query => let _ := suggest_method self query in self
  | CallGetCached query now => snd (get_cached_result self query now)
  | CallCache query result now => cache_result self query result now
  | CallInsights => let _ := get_insights self in self
  | CallCleanup max_age_hours clock =>
      snd (cleanup_volatile self max_age_hours clock)
  end.

(** The state after a sequence of calls. *)
Definition run (self : Memory) (calls : list Call) : Memory :=
  fold_left perform calls self.

(** *** Vocabulary of the statements *)

(** No call of the sequence caches under the fingerprint of [query]. *)
Definition no_recache (query : string) (calls : list Call) : Prop :=
  Forall (fun c =>
            match c with
            | CallCache query' _ _ => md5_hexdigest query' <> md5_hexdigest query
            | _ => True
            end) calls.

(** [e] is the one cache entry of [query]: the record of its fingerprint
    in [self.cache], the file (if there is one) holding the same result
    and creation time, or else the record of the file alone. *)
Definition sole_entry (self : Memory) (query : string) (e : Cached.t Result) : Prop :=
  let query_hash := md5_hexdigest query in
  (cache self !! query_hash = Some e
   /\ (cache_dir self !! query_hash = None
       \/ exists e', cache_dir self !! query_hash = Some e'
                     /\ Cached.timestamp e' = Cached.timestamp e
                     /\ Cached.result e' = Cached.result e))
  \/ (cache self !! query_hash = None /\ cache_dir self !! query_hash = Some e).

(** The file [name] with content [data] is older than [max_age_hours]
    when [cleanup_volatile] examines it. *)
Definition old_file (max_age_hours : Z) (clock : string -> Q)
    (file : string * Cached.t Result) : Prop :=
  is_old max_age_hours (clock (fst file)) (snd file) = true.

#[local] Instance old_file_dec max_age_hours clock file :
  Decision (old_file max_age_hours clock file).
Proof. unfold old_file. apply _. Defined.

(** [self.cache] holds, for the fingerprint of [query], a record with the
    given result and creation time, and the file of that fingerprint, if
    there is one, holds the same. *)
Definition holds (self : Memory) (query : string) (result : Result)
    (created_at : Q) : Prop :=
  exists e, sole_entry self query e
            /\ cache self !! md5_hexdigest query = Some e
            /\ Cached.result e = result
            /\ Cached.timestamp e = created_at.

(** The records a call appends to the pattern log. *)
Definition recorded (c : Call) : list Pattern.t :=
  match c with
  | CallRemember query method success response_time citations_count now =>
      [Pattern.mk query (_classify_query query) method success
                  response_time citations_count now]
  | _ => []
  end.

(** The fields of the full insight report, in the order of the dict. *)
Definition report_fields : list string :=
  ["total_patterns"; "patterns_learned"; "cache_hit_rate"; "query_types";
   "method_preferences"; "best_combinations"; "avg_response_time"].

(** The arithmetic mean of a non-empty sequence of response times. *)
Definition mean (times : list Q) : Q :=
  (fold_right Qplus 0 times / Qnat (length times))%Q.

(** Recording a sequence of response times, one call each, all with the
    same other arguments. *)
Definition record_times (self : Memory) (query method : string) (success : bool)
    (times : list Q) : Memory :=
  fold_left (fun self response_time =>
               remember_query self query method success response_time 0 "")
            times self.

(** The number of times a method occurs in a list of methods. *)
Definition occurrences (m : string) (methods : list string) : nat :=
  length (List.filter (String.eqb m) methods).

(** The distinct methods of a list, in the order of their first
    occurrences. *)
Definition see (seen : list string) (m : string) : list string :=
  if existsb (String.eqb m) seen then seen else seen ++ [m].

Definition first_seen (methods : list string) : list string :=
  fold_left see methods [].

(** [best] has the highest number of occurrences, and every method
    encountered before the first occurrence of [best] has strictly fewer:
    [best] is the first method, in encounter order, that reaches the
    maximum. *)
Definition first_max (best : string) (methods : list string) : Prop :=
  (forall m, occurrences m methods <= occurrences best methods)
  /\ exists before after,
       methods = before ++ best :: after
       /\ ~ In best before
       /\ forall m, In m before ->
                    occurrences m methods < occurrences best methods.

(** The successful records of the type of [query], and the value of the
    local variable [best_method] of [suggest_method]. *)
Definition similar_patterns (self : Memory) (query : string) : list Pattern.t :=
  List.filter (same_type (_classify_query query)) (patterns self).

Definition best_method (self : Memory) (query : string) : option string :=
  max_by_count (method_scores_of (similar_patterns self query)).

(** The confidence of [suggest_method] in a method. *)
Definition share (self : Memory) (query m : string) : Q :=
  (Qnat (occurrences m (map Pattern.method (similar_patterns self query)))
   / Qnat (length (similar_patterns self query)))%Q.

(** *** Sample states *)

(** A memory whose pattern log was loaded from [patterns.json]. *)
Definition loaded (ps : list Pattern.t) : Memory :=
  mkMemory ps ∅ fresh_stats None None ∅.

(** A successful record of [method] for [query], as [remember_query]
    builds it. *)
Definition success_record (query method : string) : Pattern.t :=
  Pattern.mk query (_classify_query query) method true 1 0 "".

(** A memory started over a cache directory that holds the given files. *)
Definition restarted (files : gmap string (Cached.t Result)) : Memory :=
  mkMemory [] ∅ fresh_stats None None files.

(** Case analysis on every test of the goal. *)
Ltac case_ifs :=
  repeat match goal with
         | |- context [if ?b then _ else _] => destruct b
         end.

(** *** Construction and restarts *)

(** [_load_patterns] and [_load_stats], from the content of the two files
    ([None] when the file does not exist). *)
Definition _load_patterns (patterns_json : option (list Pattern.t)) : list Pattern.t :=
  match patterns_json with
  | Some ps => ps
  | None => []
  end.

Definition _load_stats (stats_json : option Stats) : Stats :=
  match stats_json with
  | Some st => st
  | None => fresh_stats
  end.

(** [ResearchMemory.__init__] over the given files. *)
Definition init (patterns_json : option (list Pattern.t))
    (stats_json : option Stats) (dir : gmap string (Cached.t Result)) : Memory :=
  mkMemory (_load_patterns patterns_json) ∅ (_load_stats stats_json)
           patterns_json stats_json dir.

(** The process ends and a new memory is constructed over the same
    directories. *)
Definition restart (self : Memory) : Memory :=
  init (patterns_file self) (stats_file self) (cache_dir self).

(** A session: calls, with restarts of the process between them. *)
Inductive Event : Type :=
| Do (c : Call)
| Restart.

Definition react (self : Memory) (ev : Event) : Memory :=
  match ev with
  | Do c => perform self c
  | Restart => restart self
  end.

Definition session (self : Memory) (events : list Event) : Memory :=
  fold_left react events self.

(** The counters agree with a pattern log: one query counted per record,
    and no more patterns learned than successful records beyond the
    second. *)
Definition counted (ps : list Pattern.t) (st : Stats) : Prop :=
  total_queries st = length ps
  /\ patterns_learned st <= length (List.filter Pattern.success ps) - 2.

(** The two files were written together, at a multiple of 5 records. *)
Definition files_in_step (self : Memory) : Prop :=
  match patterns_file self, stats_file self with
  | Some ps, Some st => counted ps st /\ length ps mod 5 = 0
  | None, None => True
  | _, _ => False
  end.

(** The log is what the patterns file holds followed by the records that
    were appended since the last save. *)
Definition unsaved_tail (self : Memory) (tail : list Pattern.t) : Prop :=
  patterns self = _load_patterns (patterns_file self) ++ tail
  /\ length tail <= length (patterns self) mod 5.

(** No cache file records a hit. *)
Definition files_unhit (dir : gmap string (Cached.t Result)) : Prop :=
  forall k e, dir !! k = Some e -> Cached.hits e = 0.

(** *** Vocabulary for the insight report *)

(** The records of a query type. *)
Definition records_of_type (query_type : string) (ps : list Pattern.t)
    : list Pattern.t :=
  List.filter (fun p => String.eqb query_type (Pattern.query_type p)) ps.

(** The successful records whose key ([Pattern.method], [combo_key]) is [k]. *)
Definition successes_with (key : Pattern.t -> string) (k : string)
    (ps : list Pattern.t) : list Pattern.t :=
  List.filter (fun p => Pattern.success p && String.eqb k (key p)) ps.

(** The sum of the response times of some records, added up in order
    from 0 as the loops do. *)
Definition total_time (ps : list Pattern.t) : Q :=
  fold_left Qplus (map Pattern.response_time ps) 0%Q.

(** A record seen by the loop over [best_combos]: its key is the combo. *)
Definition as_combo (p : Pattern.t) : Pattern.t :=
  Pattern.mk (Pattern.query p) (Pattern.query_type p) (combo_key p)
             (Pattern.success p) (Pattern.response_time p)
             (Pattern.citations_count p) (Pattern.timestamp p).

(** The value of a field of a report. *)
Definition has_field {V : Type} (name : string) (v : V)
    (report : list (string * V)) : Prop :=
  In (name, v) report.

(** Counts do not increase along the list. *)
Definition descending (l : list (string * Score)) : Prop :=
  StronglySorted (fun a b => count (snd b) <= count (snd a)) l.

(** ** The router's bookkeeping: [src/core/deepthink.py]

    The class [DeepThink] keeps [route_history], a list of decision dicts,
    and appends every fifth decision to the evolution file of the day. The
    research call itself goes through the router module and is not part
    of this development; what it returns enters as the arguments
    [method_used] and [citations] of [_record_routing_decision]. *)

(** A decision dict of [_record_routing_decision]. *)
Record Decision : Type := mkDecision {
  decision_timestamp : string;
  decision_query : string;
  method_selected : string;
  was_override : bool;
  decision_success : bool;
  elapsed_seconds : Q;
  decision_citations : nat
}.

(** The dict [_detect_pattern] returns. *)
Record Detected : Type := mkDetected {
  detected_type : string;
  detected_confidence : Q;
  suggested_method : string
}.

(** [DeepThink._detect_pattern]. *)
Definition _detect_pattern (decision : Decision) : option Detected :=
  let query := Str.lower (decision_query decision) in
  if any_in ["landscape"; "comprehensive"; "analyze"] query
  then Some (mkDetected "comprehensive_analysis" (8 # 10) "deep_research_api")
  else if any_in ["how to"; "implement"; "code"] query
  then Some (mkDetected "technical_question" (75 # 100) "openai_agents")
  else None.

(** An entry of an evolution file. *)
Record Entry : Type := mkEntry {
  entry_type : string;
  entry_timestamp : string;
  entry_agent : string;
  entry_decision : Decision;
  pattern_detected : option Detected
}.

(** The fields of a [DeepThink] that its bookkeeping uses, and the files
    of [evolution_dir] by name. *)
Record DeepThink : Type := mkDeepThink {
  route_history : list Decision;
  evolution : gmap string (list Entry)
}.

(** [f"{self.name} v{self.version}"]. *)
Definition agent_label : string := "DeepThink v0.1.0".

(** The name of the evolution file of a day. *)
Definition routing_file (today : string) : string := today +:+ "-routing.json".

(** [_save_evolution_entry]; [today] is
    [datetime.now().strftime("%Y-%m-%d")]. *)
Definition _save_evolution_entry (self : DeepThink) (decision : Decision)
    (today : string) : DeepThink :=
  let entry := mkEntry "ROUTING_DECISION" (decision_timestamp decision)
                       agent_label decision (_detect_pattern decision) in
  let evolution_file := routing_file today in
  let entries := match evolution self !! evolution_file with
                 | Some es => es
                 | None => []
                 end in
  mkDeepThink (route_history self)
              (<[evolution_file := entries ++ [entry]]> (evolution self)).

(** The dict [context] of [research]. *)
Record Context : Type := mkContext {
  context_timestamp : string;
  context_query : string;
  method_override : bool
}.

(** [_record_routing_decision]; [method_used] is [result.method_used] and
    [citations] is the entry [citations_count] of [result.metadata], if
    there is one. *)
Definition _record_routing_decision (self : DeepThink) (context : Context)
    (method_used : string) (citations : option nat) (elapsed : Q)
    (today : string) : DeepThink :=
  let decision :=
    mkDecision (context_timestamp context) (context_query context) method_used
               (method_override context) true elapsed
               (match citations with Some n => n | None => 0 end) in
  let self := mkDeepThink (route_history self ++ [decision]) (evolution self) in
  if (length (route_history self) mod 5 =? 0)%nat
  then _save_evolution_entry self decision today
  else self.

(** The values of the dict [get_statistics] returns. *)
Inductive StatValue : Type :=
| SText (s : string)
| SInt (n : nat)
| SNum (q : Q)
| SCounts (d : list (string * nat)).

(** [max(d, key=d.get)], continued from a current best. *)
Fixpoint max_by_value_from (best : string) (best_value : nat)
    (d : list (string * nat)) : string :=
  match d with
  | [] => best
  | (k, v) :: d' =>
      if (best_value <? v)%nat then max_by_value_from k v d'
      else max_by_value_from best best_value d'
  end.

Definition max_by_value (d : list (string * nat)) : option string :=
  match d with
  | [] => None
  | (k, v) :: d' => Some (max_by_value_from k v d')
  end.

(** The loop of [get_statistics]: the tally of methods, the total time
    and the total number of citations. *)
Definition statistics_step (acc : list (string * nat) * Q * nat)
    (decision : Decision) : list (string * nat) * Q * nat :=
  let '(methods_used, total_time, total_citations) := acc in
  (tally (method_selected decision) methods_used,
   (total_time + elapsed_seconds decision)%Q,
   total_citations + decision_citations decision).

(** [DeepThink.get_statistics]. *)
Definition get_statistics (self : DeepThink) : list (string * StatValue) :=
  match route_history self with
  | [] => [("message", SText "No research performed yet")]
  | _ =>
    let total := length (route_history self) in
    let '(methods_used, total_time, total_citations) :=
      fold_left statistics_step (route_history self) ([], 0%Q, 0) in
    [ ("total_queries", SInt total);
      ("avg_response_time", SNum (total_time / Qnat total));
      ("total_citations", SInt total_citations);
      ("methods_distribution", SCounts methods_used);
      ("preferred_method",
        SText (match max_by_value methods_used with
               | Some m => m
               | None => ""
               end));
      ("agent", SText "DeepThink");
      ("version", SText "0.1.0") ]
  end.

(** One research call as the bookkeeping sees it. *)
Record Routed : Type := mkRouted {
  routed_context : Context;
  routed_method : string;
  routed_citations : option nat;
  routed_elapsed : Q
}.

(** A day of research calls. *)
Definition record_all (self : DeepThink) (today : string) (calls : list Routed)
    : DeepThink :=
  fold_left (fun self r =>
               _record_routing_decision self (routed_context r) (routed_method r)
                                        (routed_citations r) (routed_elapsed r)
                                        today)
            calls self.

(** ** The wake-up report: [src/personality/wake_up.py] *)

(** The content of [stats.json] as the dict [json.load] returns. *)
Definition stats_items (st : Stats) : list (string * StatValue) :=
  [ ("total_queries", SInt (total_queries st));
    ("cache_hits", SInt (cache_hits st));
    ("patterns_learned", SInt (patterns_learned st));
    ("avg_response_time", SNum (avg_response_time st)) ].

(** [d.update(other)]. *)
Definition update {V : Type} (d other : list (string * V)) : list (string * V) :=
  fold_left (fun d kv => Dict.set (fst kv) (snd kv) d) other d.

(** [DeepResearchAgent.load_memory_stats], from the content of the two
    memory files. *)
Definition load_memory_stats (patterns_json : option (list Pattern.t))
    (stats_json : option Stats) : list (string * StatValue) :=
  let stats := [ ("patterns", SInt 0); ("total_queries", SInt 0);
                 ("avg_response_time", SInt 0); ("cache_hits", SInt 0) ] in
  let stats := match patterns_json with
               | Some patterns => Dict.set "patterns" (SInt (length patterns)) stats
               | None => stats
               end in
  match stats_json with
  | Some saved_stats => update stats (stats_items saved_stats)
  | None => stats
  end.

(** A tally read as a dict of scores. *)
Definition as_scores (d : list (string * nat)) : list (string * Score) :=
  map (fun kv => (fst kv, mkScore (snd kv) 0)) d.


(** The response times a sequence of calls records. *)
Definition times_of (calls : list Call) : list Q :=
  flat_map (fun c => match c with
                     | CallRemember _ _ _ response_time _ _ => [response_time]
                     | _ => []
                     end) calls.

(** Every record carries the classification of its own query. *)
Definition well_classified (ps : list Pattern.t) : Prop :=
  Forall (fun p => Pattern.query_type p = _classify_query (Pattern.query p)) ps.

(** ** The records an operation is about, in the words of the
    specification *)

(** [kept] is [log] without the records that fail [P], in the order of
    the log. *)
Inductive selects (P : Pattern.t -> Prop)
  : list Pattern.t -> list Pattern.t -> Prop :=
| selects_nil : selects P [] []
| selects_keep p log kept :
    P p -> selects P log kept -> selects P (p :: log) (p :: kept)
| selects_drop p log kept :
    ~ P p -> selects P log kept -> selects P (p :: log) kept.

(** A successful record of a query type. *)
Definition successful_of_type (query_type : string) (p : Pattern.t) : Prop :=
  Pattern.success p = true /\ Pattern.query_type p = query_type.

(** A successful record of a query type and a method. *)
Definition successful_of_pair (query_type method : string) (p : Pattern.t) : Prop :=
  Pattern.success p = true
  /\ Pattern.query_type p = query_type
  /\ Pattern.method p = method.

(** * Properties *)

(** ** Substring search *)

Lemma app_cons (c : ascii) (a b : string) :
  String c a +:+ b = String c (a +:+ b).
Proof. reflexivity. Qed.

Lemma app_empty (b : string) : "" +:+ b = b.
Proof. reflexivity. Qed.

Lemma prefix_iff (w h : string) :
  String.prefix w h = true <-> exists b, h = w +:+ b.
Proof.
  revert h. induction w as [|c w IH]; intros h.
  - destruct h; simpl; (split; [intros _; eexists; reflexivity | reflexivity]).
  - destruct h as [|d h]; simpl.
    + split; [discriminate | intros [b Hb]; discriminate].
    + destruct (ascii_dec c d) as [->|Hne].
      * rewrite IH. split; intros [b Hb]; exists b; rewrite app_cons in *; congruence.
      * split; [discriminate | intros [b Hb]; rewrite app_cons in Hb; congruence].
Qed.

Lemma contains_empty (w : string) :
  Str.contains w "" = String.prefix w "" || false.
Proof. reflexivity. Qed.

Lemma contains_cons (w : string) (d : ascii) (h : string) :
  Str.contains w (String d h) = String.prefix w (String d h) || Str.contains w h.
Proof. reflexivity. Qed.

Lemma contains_iff (w h : string) :
  Str.contains w h = true <-> Str.substring_of w h.
Proof.
  unfold Str.substring_of.
  induction h as [|d h IH]; [rewrite contains_empty | rewrite contains_cons].
  - rewrite orb_false_r, prefix_iff. split.
    + intros [b Hb]. exists "", b. exact Hb.
    + intros [a [b Hb]]. destruct a; [exists b; exact Hb | discriminate Hb].
  - rewrite orb_true_iff, prefix_iff, IH. split.
    + intros [[b Hb] | [a [b Hb]]].
      * exists "", b. exact Hb.
      * exists (String d a), b. rewrite app_cons. congruence.
    + intros [a [b Hb]]. destruct a as [|c a].
      * left. exists b. exact Hb.
      * right. exists a, b. rewrite app_cons in Hb. congruence.
Qed.

Lemma any_in_iff (words : list string) (query : string) :
  any_in words (Str.lower query) = true <-> matches query words.
Proof.
  unfold any_in, matches. rewrite existsb_exists.
  split; intros [w [Hin Hw]]; exists w; split; auto; apply contains_iff; exact Hw.
Qed.

Lemma any_in_false (words : list string) (query : string) :
  any_in words (Str.lower query) = false -> ~ matches query words.
Proof.
  intros Hf Hm. apply any_in_iff in Hm. congruence.
Qed.

Lemma query_type_name_inj (t t' : QueryType) :
  query_type_name t = query_type_name t' -> t = t'.
Proof. destruct t, t'; simpl; intros H; try reflexivity; discriminate H. Qed.

(** The priority rule of the specification determines at most one type. *)
Lemma classifies_functional (query : string) table (t t' : QueryType) :
  classifies query table t -> classifies query table t' -> t = t'.
Proof.
  intros H. revert t'.
  induction H as [|t words rest Hm|t words rest t1 Hn H1 IH]; intros t' H';
    inversion H'; subst; try reflexivity; try contradiction.
  apply IH. assumption.
Qed.

(** The code computes the type the priority rule selects. *)
Lemma classify_refines (query : string) :
  exists t, _classify_query query = query_type_name t
            /\ classifies query keyword_table t.
Proof.
  unfold _classify_query, keyword_table.
  destruct (any_in _ (Str.lower query)) eqn:H1.
  { exists comprehensive_analysis. split; [reflexivity|].
    apply classifies_here, any_in_iff, H1. }
  apply any_in_false in H1.
  destruct (any_in _ (Str.lower query)) eqn:H2.
  { exists technical_implementation. split; [reflexivity|].
    apply classifies_later; [exact H1|]. apply classifies_here, any_in_iff, H2. }
  apply any_in_false in H2.
  destruct (any_in _ (Str.lower query)) eqn:H3.
  { exists conceptual_explanation. split; [reflexivity|].
    do 2 (apply classifies_later; [assumption|]).
    apply classifies_here, any_in_iff, H3. }
  apply any_in_false in H3.
  destruct (any_in _ (Str.lower query)) eqn:H4.
  { exists recommendation. split; [reflexivity|].
    do 3 (apply classifies_later; [assumption|]).
    apply classifies_here, any_in_iff, H4. }
  apply any_in_false in H4.
  exists general_research. split; [reflexivity|].
  do 4 (apply classifies_later; [assumption|]). apply classifies_default.
Qed.

(** C2. For every query string, [_classify_query] returns the name of
    exactly one of the five query types, and that type is the one selected
    by testing the lower-cased query for the keyword substrings in the fixed
    priority order, first match winning, [general_research] being the
    default; being a function of the text alone, the answer is the same on
    every call. *)
Theorem classify_total_deterministic (query : string) :
  exists t : QueryType,
    _classify_query query = query_type_name t
    /\ classifies query keyword_table t
    /\ (forall t', _classify_query query = query_type_name t' -> t' = t)
    /\ (forall t', classifies query keyword_table t' -> t' = t).
Proof.
  destruct (classify_refines query) as [t [Hname Hcl]].
  exists t. repeat split; auto.
  - intros t' Ht'. apply query_type_name_inj. congruence.
  - intros t' Ht'. exact (classifies_functional _ _ _ _ Ht' Hcl).
Qed.

(** ** The cache store *)

Lemma Qltb_iff (x y : Q) : Qltb x y = true <-> (x < y)%Q.
Proof.
  unfold Qltb. rewrite negb_true_iff. split.
  - intros H. apply Qnot_le_lt. intros Hle.
    apply Qle_bool_iff in Hle. congruence.
  - intros H. destruct (Qle_bool y x) eqn:E; [|reflexivity].
    apply Qle_bool_iff in E. exfalso. exact (Qlt_not_le _ _ H E).
Qed.

Lemma Qltb_false_iff (x y : Q) : Qltb x y = false <-> ~ (x < y)%Q.
Proof.
  rewrite <- Qltb_iff. destruct (Qltb x y); split; intros H; congruence.
Qed.

Lemma is_fresh_iff (now : Q) (e : Cached.t Result) :
  is_fresh now e = true <-> (now - Cached.timestamp e < 3600)%Q.
Proof. apply Qltb_iff. Qed.

Lemma is_fresh_false_iff (now : Q) (e : Cached.t Result) :
  is_fresh now e = false <-> ~ (now - Cached.timestamp e < 3600)%Q.
Proof. apply Qltb_false_iff. Qed.

Lemma is_fresh_ext (now : Q) (e e' : Cached.t Result) :
  Cached.timestamp e' = Cached.timestamp e -> is_fresh now e' = is_fresh now e.
Proof. unfold is_fresh. intros ->. reflexivity. Qed.

(** What [get_cached_result] answers, store by store. *)
Lemma get_cached_result_memory (self : Memory) (query : string) (now : Q) e :
  cache self !! md5_hexdigest query = Some e ->
  is_fresh now e = true ->
  get_cached_result self query now =
    (Some (Cached.result e),
     set_cache (<[md5_hexdigest query := Cached.hit e]> (cache self))
               (count_cache_hit self)).
Proof.
  intros Hm Hf. unfold get_cached_result. rewrite Hm, Hf. reflexivity.
Qed.

Lemma get_cached_result_fallthrough (self : Memory) (query : string) (now : Q) :
  (cache self !! md5_hexdigest query = None
   \/ exists e, cache self !! md5_hexdigest query = Some e
                /\ is_fresh now e = false) ->
  get_cached_result self query now =
    get_cached_from_file self (md5_hexdigest query) now.
Proof.
  unfold get_cached_result. intros [Hm | [e [Hm Hf]]]; rewrite Hm; [|rewrite Hf]; reflexivity.
Qed.

Lemma get_cached_from_file_fresh (self : Memory) (h : string) (now : Q) e :
  cache_dir self !! h = Some e ->
  is_fresh now e = true ->
  get_cached_from_file self h now =
    (Some (Cached.result e),
     set_cache (<[h := e]> (cache self)) (count_cache_hit self)).
Proof.
  intros Hd Hf. unfold get_cached_from_file. rewrite Hd, Hf. reflexivity.
Qed.

Lemma get_cached_from_file_miss (self : Memory) (h : string) (now : Q) :
  (cache_dir self !! h = None
   \/ exists e, cache_dir self !! h = Some e /\ is_fresh now e = false) ->
  get_cached_from_file self h now = (None, self).
Proof.
  unfold get_cached_from_file. intros [Hd | [e [Hd Hf]]]; rewrite Hd; [|rewrite Hf]; reflexivity.
Qed.

(** The answer for the one entry of a query, fresh or stale. *)
Lemma sole_entry_fresh (self : Memory) (query : string) (now : Q) e :
  sole_entry self query e ->
  is_fresh now e = true ->
  fst (get_cached_result self query now) = Some (Cached.result e).
Proof.
  intros [[Hm _] | [Hm Hd]] Hlt.
  - rewrite (get_cached_result_memory _ _ _ _ Hm Hlt). reflexivity.
  - rewrite get_cached_result_fallthrough by (left; exact Hm).
    rewrite (get_cached_from_file_fresh _ _ _ _ Hd Hlt). reflexivity.
Qed.

Lemma sole_entry_stale (self : Memory) (query : string) (now : Q) e :
  sole_entry self query e ->
  is_fresh now e = false ->
  get_cached_result self query now = (None, self).
Proof.
  intros [[Hm Hd] | [Hm Hd]] Hge.
  - rewrite get_cached_result_fallthrough by (right; exists e; auto).
    apply get_cached_from_file_miss.
    destruct Hd as [Hd | [e' [Hd [Hts _]]]]; [left; exact Hd|].
    right. exists e'. split; [exact Hd|].
    rewrite (is_fresh_ext _ _ _ Hts). exact Hge.
  - rewrite get_cached_result_fallthrough by (left; exact Hm).
    apply get_cached_from_file_miss. right. exists e. auto.
Qed.

(** C4. For the cache entry of a query, [get_cached_result] returns the
    stored result if and only if [now - created_at < 3600], strictly, and
    returns nothing otherwise; an entry created 3601 seconds ago is not
    returned and one created 3599 seconds ago is. *)
Theorem get_cached_result_ttl (self : Memory) (query : string) (now : Q)
    (e : Cached.t Result) :
  sole_entry self query e ->
  ((now - Cached.timestamp e < 3600)%Q ->
     fst (get_cached_result self query now) = Some (Cached.result e))
  /\ (~ (now - Cached.timestamp e < 3600)%Q ->
        fst (get_cached_result self query now) = None)
  /\ (Cached.timestamp e = (now - 3601)%Q ->
        fst (get_cached_result self query now) = None)
  /\ (Cached.timestamp e = (now - 3599)%Q ->
        fst (get_cached_result self query now) = Some (Cached.result e)).
Proof.
  intros Hsole.
  assert (Hyes : (now - Cached.timestamp e < 3600)%Q ->
                 fst (get_cached_result self query now) = Some (Cached.result e)).
  { intros Hlt. apply sole_entry_fresh; [exact Hsole|]. apply is_fresh_iff, Hlt. }
  assert (Hno : ~ (now - Cached.timestamp e < 3600)%Q ->
                fst (get_cached_result self query now) = None).
  { intros Hge. rewrite (sole_entry_stale _ _ _ e); [reflexivity|exact Hsole|].
    apply is_fresh_false_iff, Hge. }
  repeat split; auto.
  - intros Hts. apply Hno. rewrite Hts. lra.
  - intros Hts. apply Hyes. rewrite Hts. lra.
Qed.

(** The two shapes of the state after [get_cached_result]. *)
Lemma get_cached_result_shape (self : Memory) (query : string) (now : Q) :
  snd (get_cached_result self query now) = self
  \/ exists e, snd (get_cached_result self query now) =
                 set_cache (<[md5_hexdigest query := e]> (cache self))
                           (count_cache_hit self).
Proof.
  unfold get_cached_result, get_cached_from_file.
  destruct (cache self !! md5_hexdigest query) as [e|] eqn:Hm.
  - destruct (is_fresh now e); [right; eexists; reflexivity|].
    destruct (cache_dir self !! md5_hexdigest query) as [e'|];
      [destruct (is_fresh now e')|]; simpl; eauto.
  - destruct (cache_dir self !! md5_hexdigest query) as [e'|];
      [destruct (is_fresh now e')|]; simpl; eauto.
Qed.

(** C9. [get_cached_result] removes no entry, neither from [self.cache]
    nor from the files, even when the entry it finds is stale. When the
    entry is absent from memory and fresh on disk, it is loaded into
    [self.cache] as it is on disk, so its hit count is not incremented,
    while the global [cache_hits] is; a fresh hit in memory increments the
    hit count of the entry by one. *)
Theorem get_cached_result_frame (self : Memory) (query : string) (now : Q) :
  let query_hash := md5_hexdigest query in
  let out := get_cached_result self query now in
  cache_dir (snd out) = cache_dir self
  /\ (forall k, is_Some (cache self !! k) -> is_Some (cache (snd out) !! k))
  /\ (forall e, cache self !! query_hash = None ->
                cache_dir self !! query_hash = Some e ->
                is_fresh now e = true ->
                fst out = Some (Cached.result e)
                /\ cache (snd out) = <[query_hash := e]> (cache self)
                /\ cache_hits (stats (snd out)) = cache_hits (stats self) + 1)
  /\ (forall e, cache self !! query_hash = Some e ->
                is_fresh now e = true ->
                fst out = Some (Cached.result e)
                /\ (exists e', cache (snd out) = <[query_hash := e']> (cache self)
                               /\ Cached.hits e' = Cached.hits e + 1
                               /\ Cached.result e' = Cached.result e
                               /\ Cached.timestamp e' = Cached.timestamp e)
                /\ cache_hits (stats (snd out)) = cache_hits (stats self) + 1).
Proof.
  intros query_hash out. subst out query_hash. repeat split.
  - destruct (get_cached_result_shape self query now) as [-> | [e ->]]; reflexivity.
  - intros k Hk.
    destruct (get_cached_result_shape self query now) as [-> | [e ->]]; [exact Hk|].
    simpl. rewrite lookup_insert. case_decide; [eauto | exact Hk].
  - rewrite get_cached_result_fallthrough by (left; assumption).
    rewrite (get_cached_from_file_fresh _ _ _ e) by assumption. reflexivity.
  - rewrite get_cached_result_fallthrough by (left; assumption).
    rewrite (get_cached_from_file_fresh _ _ _ e) by assumption. reflexivity.
  - rewrite get_cached_result_fallthrough by (left; assumption).
    rewrite (get_cached_from_file_fresh _ _ _ e) by assumption. reflexivity.
  - rewrite (get_cached_result_memory _ _ _ e) by assumption. reflexivity.
  - rewrite (get_cached_result_memory _ _ _ e) by assumption.
    exists (Cached.hit e). repeat split.
  - rewrite (get_cached_result_memory _ _ _ e) by assumption. reflexivity.
Qed.

(** ** Cleanup *)

Lemma is_old_iff (max_age_hours : Z) (now : Q) (data : Cached.t Result) :
  is_old max_age_hours now data = true
  <-> (inject_Z max_age_hours < (now - Cached.timestamp data) / 3600)%Q.
Proof. apply Qltb_iff. Qed.

(** The loop deletes the files it finds old, counts them, and does
    nothing else. *)
Lemma cleanup_loop (max_age_hours : Z) (clock : string -> Q)
    (files : list (string * Cached.t Result)) :
  forall (dir : gmap string (Cached.t Result)) (cleaned : nat),
    let out := foldl (cleanup_step max_age_hours clock) (dir, cleaned) files in
    (forall k, fst out !! k =
               if decide (k ∈ (filter (old_file max_age_hours clock) files).*1)
               then None else dir !! k)
    /\ snd out = cleaned + length (filter (old_file max_age_hours clock) files).
Proof.
  induction files as [|[name data] files IH]; intros dir cleaned; cbn [foldl].
  - cbn [fst snd]. split; [|rewrite filter_nil; simpl; lia]. intros k. rewrite decide_False; [reflexivity|].
    rewrite filter_nil. apply not_elem_of_nil.
  - rewrite filter_cons. unfold cleanup_step at 2 4. cbn [fst snd].
    destruct (is_old max_age_hours (clock name) data) eqn:Hold.
    + rewrite decide_True by (unfold old_file; simpl; exact Hold).
      destruct (IH (delete name dir) (cleaned + 1)) as [IHl IHc].
      split.
      * intros k. rewrite IHl. rewrite fmap_cons. cbn [fst].
        destruct (decide (k = name)) as [->|Hne].
        -- rewrite lookup_delete_eq.
           rewrite (decide_True (P := name ∈ name :: _)) by left.
           case_decide; reflexivity.
        -- rewrite lookup_delete_ne by congruence.
           destruct (decide (k ∈ (filter (old_file max_age_hours clock) files).*1))
             as [Hin|Hnin].
           ++ rewrite decide_True by (right; exact Hin). reflexivity.
           ++ rewrite decide_False; [reflexivity|].
              intros [?|?]%elem_of_cons; contradiction.
      * rewrite IHc. simpl. lia.
    + rewrite decide_False by (unfold old_file; simpl; congruence).
      apply IH.
Qed.

Lemma old_key_of_map (max_age_hours : Z) (clock : string -> Q)
    (dir : gmap string (Cached.t Result)) (k : string) :
  k ∈ (filter (old_file max_age_hours clock) (map_to_list dir)).*1
  <-> exists e, dir !! k = Some e /\ old_file max_age_hours clock (k, e).
Proof.
  rewrite list_elem_of_fmap. split.
  - intros [[k' e] [-> Hin]]. apply list_elem_of_filter in Hin as [Hold Hin].
    apply elem_of_map_to_list in Hin. exists e. auto.
  - intros [e [Hk Hold]]. exists (k, e). split; [reflexivity|].
    apply list_elem_of_filter. split; [exact Hold|].
    apply elem_of_map_to_list. exact Hk.
Qed.

Lemma cleanup_volatile_unfold (self : Memory) (max_age_hours : Z)
    (clock : string -> Q) :
  cleanup_volatile self max_age_hours clock =
    (snd (foldl (cleanup_step max_age_hours clock) (cache_dir self, 0)
                (map_to_list (cache_dir self))),
     set_cache_dir
       (fst (foldl (cleanup_step max_age_hours clock) (cache_dir self, 0)
                   (map_to_list (cache_dir self)))) self).
Proof.
  unfold cleanup_volatile.
  destruct (foldl _ _ _) as [dir cleaned]. reflexivity.
Qed.

(** The files after a cleanup, key by key. *)
Lemma cleanup_volatile_lookup (self : Memory) (max_age_hours : Z)
    (clock : string -> Q) (k : string) :
  cache_dir (snd (cleanup_volatile self max_age_hours clock)) !! k =
    match cache_dir self !! k with
    | Some e => if is_old max_age_hours (clock k) e then None else Some e
    | None => None
    end.
Proof.
  rewrite cleanup_volatile_unfold. simpl.
  destruct (cleanup_loop max_age_hours clock (map_to_list (cache_dir self))
                         (cache_dir self) 0) as [Hl _].
  rewrite Hl. case_decide as Hk.
  - apply old_key_of_map in Hk as [e [-> Hold]].
    unfold old_file in Hold. simpl in Hold. rewrite Hold. reflexivity.
  - destruct (cache_dir self !! k) as [e|] eqn:He; [|reflexivity].
    destruct (is_old max_age_hours (clock k) e) eqn:Hold; [|reflexivity].
    exfalso. apply Hk. apply old_key_of_map. exists e. auto.
Qed.

Lemma cleanup_volatile_cache (self : Memory) (max_age_hours : Z)
    (clock : string -> Q) :
  cache (snd (cleanup_volatile self max_age_hours clock)) = cache self
  /\ patterns (snd (cleanup_volatile self max_age_hours clock)) = patterns self
  /\ stats (snd (cleanup_volatile self max_age_hours clock)) = stats self.
Proof. rewrite cleanup_volatile_unfold. repeat split. Qed.

(** C7. [cleanup_volatile] removes exactly the files whose age in hours,
    when the sweep examines them, exceeds [max_age_hours]; every other
    file is left as it is, [self.cache] is unchanged, and the value
    returned is the number of files removed. *)
Theorem cleanup_volatile_exact (self : Memory) (max_age_hours : Z)
    (clock : string -> Q) :
  let out := cleanup_volatile self max_age_hours clock in
  cache_dir (snd out) =
    filter (fun file => ~ old_file max_age_hours clock file) (cache_dir self)
  /\ (forall k e, cache_dir self !! k = Some e ->
        cache_dir (snd out) !! k =
          if is_old max_age_hours (clock k) e then None else Some e)
  /\ (forall now e, is_old max_age_hours now e = true
        <-> (inject_Z max_age_hours < (now - Cached.timestamp e) / 3600)%Q)
  /\ cache (snd out) = cache self
  /\ fst out = size (filter (old_file max_age_hours clock) (cache_dir self))
  /\ size (cache_dir (snd out)) + fst out = size (cache_dir self).
Proof.
  intros out. subst out.
  assert (Hdir : cache_dir (snd (cleanup_volatile self max_age_hours clock)) =
                 filter (fun file => ~ old_file max_age_hours clock file)
                        (cache_dir self)).
  { apply map_eq. intros k. rewrite cleanup_volatile_lookup.
    apply option_eq. intros x. rewrite map_lookup_filter_Some.
    unfold old_file. simpl.
    destruct (cache_dir self !! k) as [e|];
      [|split; [discriminate | intros [Hx _]; discriminate Hx]].
    destruct (is_old max_age_hours (clock k) e) eqn:Hold; split.
    - discriminate.
    - intros [Hx Hn]. congruence.
    - intros Hx. split; [exact Hx | congruence].
    - intros [Hx _]. exact Hx. }
  assert (Hcount : fst (cleanup_volatile self max_age_hours clock) =
                   size (filter (old_file max_age_hours clock) (cache_dir self))).
  { rewrite cleanup_volatile_unfold. simpl.
    destruct (cleanup_loop max_age_hours clock (map_to_list (cache_dir self))
                           (cache_dir self) 0) as [_ Hc].
    rewrite Hc. simpl.
    rewrite (map_filter_alt (old_file max_age_hours clock)).
    rewrite map_size_list_to_map; [reflexivity|].
    eapply sublist_NoDup; [apply (NoDup_fst_map_to_list (cache_dir self))|].
    apply fmap_sublist, sublist_filter. }
  repeat split.
  - exact Hdir.
  - intros k e He. rewrite cleanup_volatile_lookup, He. reflexivity.
  - apply is_old_iff.
  - apply is_old_iff.
  - apply cleanup_volatile_cache.
  - exact Hcount.
  - rewrite Hdir, Hcount.
    rewrite <- (map_filter_union_complement (old_file max_age_hours clock)
                                            (cache_dir self)) at 3.
    rewrite map_size_disj_union by apply map_disjoint_filter_complement. lia.
Qed.

(** ** Round trip through the cache *)

(** [remember_query] touches neither cache. *)
Lemma remember_query_cache (self : Memory) query method success response_time
    citations_count now :
  cache (remember_query self query method success response_time
                        citations_count now) = cache self
  /\ cache_dir (remember_query self query method success response_time
                               citations_count now) = cache_dir self.
Proof.
  unfold remember_query, _learn_from_pattern. case_ifs; split; reflexivity.
Qed.

Lemma holds_cache_result (self : Memory) (query : string) (r : Result) (t : Q) :
  holds (cache_result self query r t) query r t.
Proof.
  exists (Cached.mk query r t 0). unfold sole_entry, cache_result. simpl.
  rewrite !lookup_insert_eq. repeat split.
  left. split; [reflexivity|]. right. eexists. repeat split.
Qed.

(** A record held for a query survives a lookup of any query at any time. *)
Lemma holds_get_cached_result (self : Memory) (query query' : string)
    (r : Result) (t now : Q) :
  holds self query r t ->
  holds (snd (get_cached_result self query' now)) query r t.
Proof.
  intros Hh.
  destruct (decide (md5_hexdigest query' = md5_hexdigest query)) as [Heq|Hne].
  - destruct Hh as [e [Hsole [Hm [Hr Ht]]]].
    destruct (is_fresh now e) eqn:Hf.
    + unfold get_cached_result. rewrite Heq, Hm, Hf. simpl.
      exists (Cached.hit e). unfold sole_entry. simpl.
      rewrite lookup_insert_eq. repeat split; auto.
      left. split; [reflexivity|].
      destruct Hsole as [[_ Hd] | [Hn _]]; [exact Hd | congruence].
    + assert (Hq : get_cached_result self query' now = (None, self)).
      { unfold get_cached_result. rewrite Heq.
        exact (sole_entry_stale self query now e Hsole Hf). }
      rewrite Hq. exists e. auto.
  - destruct Hh as [e [Hsole [Hm [Hr Ht]]]].
    destruct (get_cached_result_shape self query' now) as [-> | [e' ->]].
    + exists e. auto.
    + exists e. unfold sole_entry. simpl.
      rewrite lookup_insert_ne by exact Hne. repeat split; auto.
Qed.

(** It survives a cleanup, which can only remove the file. *)
Lemma holds_cleanup_volatile (self : Memory) (query : string) (r : Result)
    (t : Q) max_age_hours clock :
  holds self query r t ->
  holds (snd (cleanup_volatile self max_age_hours clock)) query r t.
Proof.
  intros [e [Hsole [Hm [Hr Ht]]]].
  destruct (cleanup_volatile_cache self max_age_hours clock) as [Hc _].
  exists e. unfold sole_entry. rewrite Hc, cleanup_volatile_lookup.
  repeat split; auto. left. split; [exact Hm|].
  destruct Hsole as [[_ Hd] | [Hn _]]; [|congruence].
  destruct Hd as [-> | [e' [-> [Hts Hres]]]]; [left; reflexivity|].
  destruct (is_old max_age_hours (clock (md5_hexdigest query)) e');
    [left; reflexivity | right; exists e'; auto].
Qed.

Lemma holds_perform (self : Memory) (query : string) (r : Result) (t : Q)
    (c : Call) :
  match c with
  | CallCache query' _ _ => md5_hexdigest query' <> md5_hexdigest query
  | _ => True
  end ->
  holds self query r t -> holds (perform self c) query r t.
Proof.
  intros Hc Hh. destruct c as [q m s rt cc now|q|q now|q res now| |mx clock]; simpl.
  - destruct Hh as [e He]. exists e. unfold sole_entry in *.
    destruct (remember_query_cache self q m s rt cc now) as [-> ->]. exact He.
  - exact Hh.
  - apply holds_get_cached_result, Hh.
  - destruct Hh as [e He]. exists e. unfold sole_entry, cache_result in *. simpl.
    rewrite !lookup_insert_ne by exact Hc. exact He.
  - exact Hh.
  - apply holds_cleanup_volatile, Hh.
Qed.

Lemma holds_run (query : string) (r : Result) (t : Q) (calls : list Call) :
  forall self, no_recache query calls ->
               holds self query r t -> holds (run self calls) query r t.
Proof.
  induction calls as [|c calls IH]; intros self Hn Hh; [exact Hh|].
  inversion Hn as [|c' calls' Hc Hrest]; subst. simpl.
  apply IH; [exact Hrest|]. apply holds_perform; assumption.
Qed.

(** C3. After [cache_result(q, r)], a [get_cached_result(q)] within the
    3600 seconds of the TTL returns exactly [r]; this holds immediately
    after the call and after any further calls among which none caches
    under the fingerprint of [q]. *)
Theorem cache_roundtrip (self : Memory) (query : string) (r : Result)
    (created_at now : Q) (calls : list Call) :
  no_recache query calls ->
  (now - created_at < 3600)%Q ->
  fst (get_cached_result (run (cache_result self query r created_at) calls)
                         query now) = Some r.
Proof.
  intros Hn Hlt.
  destruct (holds_run query r created_at calls _ Hn
                      (holds_cache_result self query r created_at))
    as [e [Hsole [_ [Hr Ht]]]].
  rewrite (sole_entry_fresh _ _ now e Hsole); [congruence|].
  apply is_fresh_iff. rewrite Ht. exact Hlt.
Qed.

(** ** Selections from the log *)

Lemma selects_filter (P : Pattern.t -> Prop) (f : Pattern.t -> bool)
    (log : list Pattern.t) :
  (forall p, f p = true <-> P p) -> selects P log (List.filter f log).
Proof.
  intros Hf. induction log as [|p log IH]; simpl; [constructor|].
  destruct (f p) eqn:E.
  - apply selects_keep; [apply Hf, E | exact IH].
  - apply selects_drop; [|exact IH]. intros HP. apply Hf in HP. congruence.
Qed.

(** A selection is determined by the log and the property. *)
Lemma selects_functional (P : Pattern.t -> Prop) (log kept kept' : list Pattern.t) :
  selects P log kept -> selects P log kept' -> kept = kept'.
Proof.
  intros H. revert kept'.
  induction H as [|p log kept HP H IH|p log kept HP H IH]; intros kept' H';
    inversion H'; subst; try reflexivity; try contradiction.
  - f_equal. apply IH. assumption.
  - apply IH. assumption.
Qed.

Lemma same_type_iff (query_type : string) (p : Pattern.t) :
  same_type query_type p = true <-> successful_of_type query_type p.
Proof.
  unfold same_type, successful_of_type.
  rewrite andb_true_iff, String.eqb_eq. split; intros [H1 H2]; split; assumption.
Qed.

Lemma same_type_method_iff (query_type method : string) (p : Pattern.t) :
  same_type_method query_type method p = true
  <-> successful_of_pair query_type method p.
Proof.
  unfold same_type_method, successful_of_pair.
  rewrite !andb_true_iff, !String.eqb_eq.
  split; [intros [[H1 H2] H3] | intros [H1 [H2 H3]]]; repeat split; assumption.
Qed.

(** ** The pattern recorder *)

Lemma remember_query_patterns (self : Memory) query method success
    response_time citations_count now :
  patterns (remember_query self query method success response_time
                           citations_count now)
  = patterns self ++ [Pattern.mk query (_classify_query query) method success
                                 response_time citations_count now].
Proof.
  unfold remember_query, _learn_from_pattern. case_ifs; reflexivity.
Qed.

Lemma remember_query_total (self : Memory) query method success
    response_time citations_count now :
  total_queries (stats (remember_query self query method success response_time
                                       citations_count now))
  = total_queries (stats self) + 1.
Proof.
  unfold remember_query, _learn_from_pattern. case_ifs; reflexivity.
Qed.

Lemma remember_query_avg (self : Memory) query method success
    response_time citations_count now :
  avg_response_time (stats (remember_query self query method success
                                           response_time citations_count now))
  = update_avg (avg_response_time (stats self))
               (total_queries (stats self) + 1) response_time.
Proof.
  unfold remember_query, _learn_from_pattern. case_ifs; reflexivity.
Qed.

Lemma remember_query_learned (self : Memory) query method success
    response_time citations_count now :
  patterns_learned (stats (remember_query self query method success
                                          response_time citations_count now))
  = patterns_learned (stats self)
    + (if success
          && (3 <=? length (List.filter
                              (same_type_method (_classify_query query) method)
                              (patterns self ++
                                 [Pattern.mk query (_classify_query query) method
                                             success response_time
                                             citations_count now])))%nat
       then 1 else 0).
Proof.
  unfold remember_query, _learn_from_pattern.
  destruct success; cbn [andb set_patterns set_stats patterns stats
                           Pattern.query_type Pattern.method].
  - destruct (3 <=? _)%nat; case_ifs; simpl; lia.
  - case_ifs; simpl; lia.
Qed.

Lemma perform_patterns (self : Memory) (c : Call) :
  patterns (perform self c) = patterns self ++ recorded c.
Proof.
  destruct c as [q m s rt cc now|q|q now|q res now| |mx clock]; simpl;
    rewrite ?app_nil_r; try reflexivity.
  - apply remember_query_patterns.
  - destruct (get_cached_result_shape self q now) as [-> | [e ->]]; reflexivity.
  - apply cleanup_volatile_cache.
Qed.

Lemma run_patterns (calls : list Call) :
  forall self, patterns (run self calls) = patterns self ++ flat_map recorded calls.
Proof.
  induction calls as [|c calls IH]; intros self.
  - simpl. rewrite app_nil_r. reflexivity.
  - change (run self (c :: calls)) with (run (perform self c) calls).
    rewrite IH, perform_patterns, <- app_assoc. reflexivity.
Qed.

(** C8. The pattern log is append-only: over any sequence of calls of the
    six operations the log only grows at its end, by exactly one record
    per [remember_query] and by nothing for the other operations, so every
    record keeps its position and all of its fields. *)
Theorem pattern_log_append_only (self : Memory) (calls : list Call) :
  patterns (run self calls) = patterns self ++ flat_map recorded calls
  /\ (forall i p, patterns self !! i = Some p ->
                  patterns (run self calls) !! i = Some p)
  /\ (forall c, length (patterns (perform self c))
                = length (patterns self)
                  + match c with CallRemember _ _ _ _ _ _ => 1 | _ => 0 end)
  /\ (forall query method success response_time citations_count now,
        patterns (remember_query self query method success response_time
                                 citations_count now)
        = patterns self ++ [Pattern.mk query (_classify_query query) method
                                       success response_time citations_count now]).
Proof.
  split; [|split; [|split]].
  - apply run_patterns.
  - intros i p Hi. rewrite run_patterns. apply lookup_app_l_Some, Hi.
  - intros c. rewrite perform_patterns, length_app. destruct c; reflexivity.
  - intros. apply remember_query_patterns.
Qed.

(** C6. A call of [remember_query] increments [patterns_learned] by
    exactly one when [success] is true and, after the append, at least 3
    records of the log are successful and share the query type and the
    method of the new record; in every other case the counter is
    unchanged. The records counted are exactly the successful records with
    that type and that method: records of another type, of another method
    or without success do not count. From a fresh memory the third
    successful record of one (type, method) pair brings the counter to 1,
    and once 3 such records are in the log every further successful record
    of the pair increments it again. *)
Theorem learner_threshold (self : Memory) (query method : string)
    (success : bool) (response_time : Q) (citations_count : nat) (now : string) :
  let self' := remember_query self query method success response_time
                              citations_count now in
  let similar := List.filter (same_type_method (_classify_query query) method)
                             (patterns self') in
  selects (successful_of_pair (_classify_query query) method)
          (patterns self') similar
  /\ (patterns_learned (stats self')
      = patterns_learned (stats self)
        + (if success && (3 <=? length similar)%nat then 1 else 0))
  /\ (success = true -> 3 <= length similar ->
      patterns_learned (stats self') = patterns_learned (stats self) + 1)
  /\ (success = false \/ length similar < 3 ->
      patterns_learned (stats self') = patterns_learned (stats self))
  /\ (success = true ->
      3 <= length (List.filter (same_type_method (_classify_query query) method)
                               (patterns self)) ->
      patterns_learned (stats self') = patterns_learned (stats self) + 1)
  /\ (forall q1 q2 rt1 rt2 c1 c2 n1 n2,
        _classify_query q1 = _classify_query query ->
        _classify_query q2 = _classify_query query ->
        let s1 := remember_query fresh q1 method true rt1 c1 n1 in
        let s2 := remember_query s1 q2 method true rt2 c2 n2 in
        let s3 := remember_query s2 query method true response_time
                                 citations_count now in
        patterns_learned (stats s2) = 0 /\ patterns_learned (stats s3) = 1).
Proof.
  intros self' similar. subst self' similar.
  split; [|split; [|split; [|split; [|split]]]].
  - apply selects_filter. intros p. apply same_type_method_iff.
  - rewrite remember_query_learned, remember_query_patterns. reflexivity.
  - intros -> Hthree. rewrite remember_query_learned.
    rewrite remember_query_patterns in Hthree. cbn [andb].
    apply Nat.leb_le in Hthree. rewrite Hthree. reflexivity.
  - intros Hnot. rewrite remember_query_learned.
    rewrite remember_query_patterns in Hnot.
    destruct Hnot as [-> | Hfew]; [cbn [andb]; lia|].
    apply Nat.leb_gt in Hfew. rewrite Hfew, andb_false_r. lia.
  - intros -> Hthree. rewrite remember_query_learned.
    rewrite List.filter_app, length_app. cbn [andb].
    destruct (3 <=? _)%nat eqn:Hle; [reflexivity|].
    apply Nat.leb_gt in Hle. lia.
  - intros q1 q2 rt1 rt2 c1 c2 n1 n2 H1 H2 s1 s2 s3. subst s1 s2 s3.
    rewrite !remember_query_learned, !remember_query_patterns.
    cbn [fresh patterns stats fresh_stats patterns_learned app andb].
    unfold same_type_method. cbn [List.filter Pattern.query_type Pattern.method
                                    Pattern.success].
    rewrite H1, H2, !String.eqb_refl. simpl. split; reflexivity.
Qed.

(** ** The insight aggregator *)

(** C10. On an empty pattern log [get_insights] returns the one-field dict
    with the message and none of the report fields; when the log has a
    record it returns the full report, whose keys are the seven report
    fields, none of which is [message]. *)
Theorem get_insights_empty_message (self : Memory) :
  (patterns self = [] ->
     get_insights self = [("message", VText "No patterns learned yet")]
     /\ forall f, In f report_fields -> ~ In f (Dict.keys (get_insights self)))
  /\ (patterns self <> [] ->
        Dict.keys (get_insights self) = report_fields
        /\ ~ In "message" (Dict.keys (get_insights self))).
Proof.
  unfold get_insights. split.
  - intros ->. split; [reflexivity|].
    intros f Hf [Hm | []]. simpl in Hm. subst f.
    unfold report_fields in Hf. simpl in Hf.
    repeat destruct Hf as [Hf | Hf]; try discriminate Hf. exact Hf.
  - intros Hne. destruct (patterns self) as [|p ps] eqn:Hp; [congruence|].
    rewrite <- Hp. destruct (fold_left insight_step _ _) as [qts prefs].
    split; [reflexivity|]. simpl.
    intros Hin. repeat destruct Hin as [Hin | Hin]; try discriminate Hin. exact Hin.
Qed.

(** ** Insertion-ordered dicts *)

Section DictFacts.
Context {V : Type}.
Implicit Types (d : list (string * V)) (k : string) (v : V).

Lemma dict_mem_keys k d :
  Dict.mem k d = existsb (String.eqb k) (Dict.keys d).
Proof.
  induction d as [|[k' v'] d IH]; simpl; [reflexivity|]. rewrite IH. reflexivity.
Qed.

Lemma dict_mem_iff k d : Dict.mem k d = true <-> In k (Dict.keys d).
Proof.
  rewrite dict_mem_keys, existsb_exists. split.
  - intros [x [Hx He]]. apply String.eqb_eq in He. subst. exact Hx.
  - intros Hk. exists k. split; [exact Hk | apply String.eqb_refl].
Qed.

Lemma dict_get_set_eq k v default d :
  Dict.get k default (Dict.set k v d) = v.
Proof.
  induction d as [|[k' v'] d IH]; simpl.
  - rewrite String.eqb_refl. reflexivity.
  - destruct (String.eqb k k') eqn:E; simpl; rewrite E; [reflexivity | exact IH].
Qed.

Lemma dict_get_set_ne k k' v default d :
  k <> k' -> Dict.get k' default (Dict.set k v d) = Dict.get k' default d.
Proof.
  intros Hne. induction d as [|[k0 v0] d IH]; simpl.
  - apply String.eqb_neq in Hne. rewrite String.eqb_sym, Hne. reflexivity.
  - destruct (String.eqb k k0) eqn:E; simpl.
    + apply String.eqb_eq in E. subst k0.
      destruct (String.eqb k' k) eqn:E'; [|reflexivity].
      apply String.eqb_eq in E'. congruence.
    + rewrite IH. reflexivity.
Qed.

Lemma dict_set_set k v v' d :
  Dict.set k v (Dict.set k v' d) = Dict.set k v d.
Proof.
  induction d as [|[k0 v0] d IH]; simpl.
  - rewrite String.eqb_refl. reflexivity.
  - destruct (String.eqb k k0) eqn:E; simpl; rewrite E; [reflexivity|].
    rewrite IH. reflexivity.
Qed.

Lemma dict_get_absent k default d :
  Dict.mem k d = false -> Dict.get k default d = default.
Proof.
  induction d as [|[k0 v0] d IH]; simpl; [reflexivity|].
  intros H. apply orb_false_iff in H as [E Hm]. rewrite E. apply IH, Hm.
Qed.

Lemma dict_keys_set k v d :
  Dict.keys (Dict.set k v d) = see (Dict.keys d) k.
Proof.
  unfold see. rewrite <- dict_mem_keys.
  induction d as [|[k0 v0] d IH]; simpl; [reflexivity|].
  destruct (String.eqb k k0) eqn:E; simpl; [reflexivity|].
  unfold Dict.keys in *. simpl. rewrite IH.
  destruct (Dict.mem k d); reflexivity.
Qed.

Lemma dict_get_in k v default d :
  NoDup (Dict.keys d) -> (k, v) ∈ d -> Dict.get k default d = v.
Proof.
  induction d as [|[k0 v0] d IH]; intros Hnd Hin; [inversion Hin|].
  unfold Dict.keys in Hnd. rewrite fmap_cons in Hnd.
  apply NoDup_cons in Hnd as [Hk0 Hnd]. simpl.
  apply elem_of_cons in Hin as [Heq | Hin].
  - inversion Heq; subst. rewrite String.eqb_refl. reflexivity.
  - destruct (String.eqb k k0) eqn:E.
    + apply String.eqb_eq in E. subst k0. exfalso. apply Hk0.
      apply list_elem_of_fmap. exists (k, v). auto.
    + apply IH; assumption.
Qed.

End DictFacts.

(** ** Encounter order *)

Lemma see_incl (seen : list string) (m x : string) :
  In x (see seen m) <-> In x seen \/ x = m.
Proof.
  unfold see. destruct (existsb (String.eqb m) seen) eqn:E.
  - split; [auto|]. intros [H | ->]; [exact H|].
    apply existsb_exists in E as [y [Hy He]].
    apply String.eqb_eq in He. subst. exact Hy.
  - rewrite in_app_iff. simpl. split; intros [H | H]; auto.
    + destruct H as [H | []]; auto.
Qed.

Lemma see_NoDup (seen : list string) (m : string) :
  NoDup seen -> NoDup (see seen m).
Proof.
  unfold see. intros Hnd. destruct (existsb (String.eqb m) seen) eqn:E; [exact Hnd|].
  apply NoDup_app.
  split; [exact Hnd|]. split.
  - intros x Hx Hm. apply list_elem_of_singleton in Hm. subst x.
    assert (Ht : existsb (String.eqb m) seen = true).
    { apply existsb_exists. exists m. split; [|apply String.eqb_refl].
      apply list_elem_of_In. exact Hx. }
    congruence.
  - apply NoDup_singleton.
Qed.

Lemma fold_see_In (l : list string) :
  forall acc x, In x (fold_left see l acc) <-> In x acc \/ In x l.
Proof.
  clear md5_hexdigest.
  induction l as [|m l IH]; intros acc x; simpl.
  - tauto.
  - rewrite IH, see_incl. split.
    + intros [[H | ->] | H]; tauto.
    + intros [H | [-> | H]]; tauto.
Qed.

Lemma first_seen_In (l : list string) (x : string) :
  In x (first_seen l) <-> In x l.
Proof. clear md5_hexdigest. unfold first_seen. rewrite fold_see_In. simpl. tauto. Qed.

Lemma fold_see_extends (l : list string) :
  forall acc, exists extra, fold_left see l acc = acc ++ extra.
Proof.
  induction l as [|m l IH]; intros acc; simpl.
  - exists []. rewrite app_nil_r. reflexivity.
  - destruct (IH (see acc m)) as [extra ->]. unfold see.
    destruct (existsb (String.eqb m) acc).
    + exists extra. reflexivity.
    + exists (m :: extra). rewrite <- app_assoc. reflexivity.
Qed.

(** Up to its first occurrence a method splits the distinct methods as it
    splits the list. *)
Lemma first_seen_split (l1 l2 : list string) (b : string) :
  ~ In b l1 ->
  exists extra, first_seen (l1 ++ b :: l2) = first_seen l1 ++ b :: extra.
Proof.
  intros Hb. unfold first_seen. rewrite fold_left_app. simpl.
  assert (Hsee : see (fold_left see l1 []) b = fold_left see l1 [] ++ [b]).
  { unfold see at 1. destruct (existsb (String.eqb b) (fold_left see l1 [])) eqn:E;
      [|reflexivity].
    apply existsb_exists in E as [y [Hy He]]. apply String.eqb_eq in He. subst y.
    apply (first_seen_In l1 b) in Hy. contradiction. }
  rewrite Hsee. destruct (fold_see_extends l2 (fold_left see l1 [] ++ [b]))
    as [extra ->].
  exists extra. rewrite <- app_assoc. reflexivity.
Qed.

Lemma NoDup_split_unique {A : Type} (x : A) (l1 : list A) :
  forall l1' l2 l2',
    l1 ++ x :: l2 = l1' ++ x :: l2' -> NoDup (l1 ++ x :: l2) -> l1 = l1'.
Proof.
  induction l1 as [|a l1 IH]; intros l1' l2 l2' Heq Hnd.
  - destruct l1' as [|a' l1']; [reflexivity|]. simpl in Heq.
    injection Heq as Ha Hl. subst a' l2. simpl in Hnd.
    apply NoDup_cons in Hnd as [Hx _].
    exfalso. apply Hx. apply list_elem_of_In, in_elt.
  - destruct l1' as [|a' l1']; simpl in Heq.
    + injection Heq as Ha Hl. subst a. simpl in Hnd.
      apply NoDup_cons in Hnd as [Hx _].
      exfalso. apply Hx. apply list_elem_of_In, in_elt.
    + injection Heq as Ha Hl. subst a'. simpl in Hnd.
      apply NoDup_cons in Hnd as [_ Hnd].
      f_equal. exact (IH _ _ _ Hl Hnd).
Qed.

(** ** The suggestion engine *)

Lemma occurrences_snoc (k m : string) (l : list string) :
  occurrences k (l ++ [m]) = occurrences k l + (if String.eqb k m then 1 else 0).
Proof.
  unfold occurrences. rewrite List.filter_app, length_app. simpl.
  destruct (String.eqb k m); reflexivity.
Qed.

Lemma occurrences_absent (k : string) (l : list string) :
  ~ In k l -> occurrences k l = 0.
Proof.
  unfold occurrences. induction l as [|m l IH]; simpl; intros Hk; [reflexivity|].
  destruct (String.eqb k m) eqn:E.
  - apply String.eqb_eq in E. subst. exfalso. auto.
  - apply IH. auto.
Qed.

Lemma occurrences_split (k : string) (l1 l2 : list string) :
  occurrences k (l1 ++ l2) = occurrences k l1 + occurrences k l2.
Proof. unfold occurrences. rewrite List.filter_app, length_app. reflexivity. Qed.

(** Two different methods share the records between them. *)
Lemma occurrences_two (k k' : string) (l : list string) :
  k <> k' -> occurrences k l + occurrences k' l <= length l.
Proof.
  intros Hne. unfold occurrences. induction l as [|m l IH]; simpl; [lia|].
  destruct (String.eqb k m) eqn:E, (String.eqb k' m) eqn:E'; simpl; try lia.
  apply String.eqb_eq in E, E'. congruence.
Qed.

(** The three assignments of a round amount to one. *)
Lemma score_step_eq (d : list (string * Score)) (p : Pattern.t) :
  score_step d p =
    let s := Dict.get (Pattern.method p) (mkScore 0 0) d in
    Dict.set (Pattern.method p)
             (mkScore (count s + 1) (avg_time s + Pattern.response_time p)%Q) d.
Proof.
  unfold score_step. destruct (Dict.mem (Pattern.method p) d) eqn:Hm; cbn zeta.
  - rewrite dict_get_set_eq, dict_set_set. reflexivity.
  - rewrite !dict_get_set_eq, !dict_set_set.
    rewrite (dict_get_absent _ _ _ Hm). reflexivity.
Qed.

(** After the counting loop the keys are the distinct methods in encounter
    order and each count is the number of records of the method. *)
Lemma counting_loop (sim : list Pattern.t) :
  let d := fold_left score_step sim [] in
  Dict.keys d = first_seen (map Pattern.method sim)
  /\ forall k, count (Dict.get k (mkScore 0 0) d)
               = occurrences k (map Pattern.method sim).
Proof.
  induction sim as [|p sim IH] using rev_ind; [split; reflexivity|].
  destruct IH as [IHk IHc]. cbn zeta.
  rewrite fold_left_app, map_app. cbn [fold_left map]. rewrite score_step_eq.
  cbn zeta. split.
  - rewrite dict_keys_set, IHk. unfold first_seen.
    rewrite fold_left_app. reflexivity.
  - intros k. rewrite occurrences_snoc.
    destruct (String.eqb k (Pattern.method p)) eqn:E.
    + apply String.eqb_eq in E. subst k.
      rewrite dict_get_set_eq. simpl. rewrite IHc. reflexivity.
    + apply String.eqb_neq in E.
      rewrite dict_get_set_ne by congruence. rewrite IHc. lia.
Qed.

Lemma first_seen_NoDup (l : list string) : NoDup (first_seen l).
Proof.
  unfold first_seen. induction l as [|m l IH] using rev_ind.
  - apply NoDup_nil_2.
  - rewrite fold_left_app. simpl. apply see_NoDup, IH.
Qed.

Lemma average_times_keys (d : list (string * Score)) :
  Dict.keys (average_times d) = Dict.keys d.
Proof.
  unfold Dict.keys, average_times. rewrite map_map. reflexivity.
Qed.

Lemma average_times_count (k : string) (d : list (string * Score)) :
  count (Dict.get k (mkScore 0 0) (average_times d))
  = count (Dict.get k (mkScore 0 0) d).
Proof.
  induction d as [|[k0 v0] d IH]; simpl; [reflexivity|].
  destruct (String.eqb k k0); [reflexivity | exact IH].
Qed.

(** The dict [method_scores] of [suggest_method]. *)
Lemma method_scores_facts (sim : list Pattern.t) :
  let d := method_scores_of sim in
  Dict.keys d = first_seen (map Pattern.method sim)
  /\ (forall k, count (Dict.get k (mkScore 0 0) d)
                = occurrences k (map Pattern.method sim))
  /\ (forall k v, (k, v) ∈ d -> count v = occurrences k (map Pattern.method sim)).
Proof.
  destruct (counting_loop sim) as [Hk Hc]. cbn zeta in *.
  unfold method_scores_of.
  assert (Hk' : Dict.keys (average_times (fold_left score_step sim []))
                = first_seen (map Pattern.method sim)).
  { rewrite average_times_keys. exact Hk. }
  assert (Hc' : forall k,
             count (Dict.get k (mkScore 0 0)
                             (average_times (fold_left score_step sim [])))
             = occurrences k (map Pattern.method sim)).
  { intros k. rewrite average_times_count. apply Hc. }
  split; [exact Hk'|]. split; [exact Hc'|].
  intros k v Hin. rewrite <- Hc'. symmetry. f_equal.
  apply dict_get_in; [|exact Hin]. rewrite Hk'. apply first_seen_NoDup.
Qed.

(** [max] keeps the first of the entries with the largest count. *)
Lemma max_by_count_from_spec (d : list (string * Score)) :
  forall best best_count,
    let r := max_by_count_from best best_count d in
    (r = best /\ forall kv, kv ∈ d -> count (snd kv) <= best_count)
    \/ exists d1 v d2,
         d = d1 ++ (r, v) :: d2
         /\ best_count < count v
         /\ (forall kv, kv ∈ d1 -> count (snd kv) < count v)
         /\ (forall kv, kv ∈ d2 -> count (snd kv) <= count v).
Proof.
  induction d as [|[k v] d IH]; intros best best_count; cbn zeta.
  - left. split; [reflexivity|]. intros kv Hkv. inversion Hkv.
  - simpl. destruct (best_count <? count v)%nat eqn:E.
    + apply Nat.ltb_lt in E.
      destruct (IH k (count v)) as [[Hr Hall] | (d1 & v' & d2 & Hd & Hlt & H1 & H2)].
      * right. exists [], v, d. rewrite Hr. repeat split; auto.
        intros kv Hkv. inversion Hkv.
      * right. exists ((k, v) :: d1), v', d2. rewrite Hd at 1.
        repeat split; [lia | | exact H2].
        intros kv Hkv. apply elem_of_cons in Hkv as [-> | Hkv]; [exact Hlt | auto].
    + apply Nat.ltb_ge in E.
      destruct (IH best best_count)
        as [[Hr Hall] | (d1 & v' & d2 & Hd & Hlt & H1 & H2)].
      * left. split; [exact Hr|].
        intros kv Hkv. apply elem_of_cons in Hkv as [-> | Hkv]; [exact E | auto].
      * right. exists ((k, v) :: d1), v', d2. rewrite Hd at 1.
        repeat split; [exact Hlt | | exact H2].
        intros kv Hkv. apply elem_of_cons in Hkv as [-> | Hkv]; [simpl; lia | auto].
Qed.

Lemma max_by_count_spec (d : list (string * Score)) (r : string) :
  max_by_count d = Some r ->
  exists d1 v d2,
    d = d1 ++ (r, v) :: d2
    /\ (forall kv, kv ∈ d1 -> count (snd kv) < count v)
    /\ (forall kv, kv ∈ d2 -> count (snd kv) <= count v).
Proof.
  destruct d as [|[k v] d]; [discriminate|]. simpl. intros [= <-].
  destruct (max_by_count_from_spec d k (count v))
    as [[Hr Hall] | (d1 & v' & d2 & Hd & Hlt & H1 & H2)].
  - exists [], v, d. rewrite Hr. repeat split; auto.
    intros kv Hkv. inversion Hkv.
  - exists ((k, v) :: d1), v', d2. rewrite Hd at 1. repeat split; auto.
    intros kv Hkv. apply elem_of_cons in Hkv as [-> | Hkv]; [exact Hlt | auto].
Qed.

Lemma keys_entry (d : list (string * Score)) (k : string) :
  In k (Dict.keys d) -> exists v, (k, v) ∈ d.
Proof.
  unfold Dict.keys. rewrite in_map_iff. intros [[k' v] [Hk Hin]].
  simpl in Hk. subst k'. exists v. apply list_elem_of_In, Hin.
Qed.

(** The selected method: the first, in encounter order, with the highest
    count; its entry holds its number of records. *)
Lemma best_method_first_max (self : Memory) (query b : string) :
  best_method self query = Some b ->
  first_max b (map Pattern.method (similar_patterns self query))
  /\ count (Dict.get b (mkScore 0 0)
                     (method_scores_of (similar_patterns self query)))
     = occurrences b (map Pattern.method (similar_patterns self query)).
Proof.
  unfold best_method. set (sim := similar_patterns self query).
  set (methods := map Pattern.method sim).
  intros Hmax.
  destruct (method_scores_facts sim) as (Hk & Hc & Hin).
  cbn zeta in Hk, Hc, Hin. fold methods in Hk, Hc, Hin.
  apply max_by_count_spec in Hmax as (d1 & v & d2 & Hd & H1 & H2).
  assert (Hbv : (b, v) ∈ method_scores_of sim).
  { rewrite Hd. apply elem_of_app. right. left. }
  assert (Hv : count v = occurrences b methods) by (apply Hin, Hbv).
  assert (Hle : forall m, occurrences m methods <= occurrences b methods).
  { intros m. destruct (in_dec string_dec m methods) as [Hm | Hm].
    - apply first_seen_In in Hm. rewrite <- Hk in Hm.
      apply keys_entry in Hm as [v' Hv'].
      rewrite <- (Hin _ _ Hv'), <- Hv. rewrite Hd in Hv'.
      apply elem_of_app in Hv' as [Hv' | Hv'].
      + apply Nat.lt_le_incl. exact (H1 _ Hv').
      + apply elem_of_cons in Hv' as [Heq | Hv'].
        * injection Heq as _ ->. lia.
        * exact (H2 _ Hv').
    - rewrite (occurrences_absent _ _ Hm). lia. }
  split; [|rewrite Hc; reflexivity].
  split; [exact Hle|].
  assert (Hb : b ∈ methods).
  { apply list_elem_of_In, first_seen_In. rewrite <- Hk.
    unfold Dict.keys. rewrite Hd, map_app. apply in_elt. }
  apply list_elem_of_split_l in Hb as (before & after & Hsplit & Hnb).
  exists before, after. split; [exact Hsplit|].
  split; [rewrite <- list_elem_of_In; exact Hnb|].
  intros m Hm.
  destruct (first_seen_split before after b) as [extra Hfs].
  { rewrite <- list_elem_of_In. exact Hnb. }
  rewrite <- Hsplit, <- Hk in Hfs.
  assert (Hkeys : Dict.keys (method_scores_of sim)
                  = Dict.keys d1 ++ b :: Dict.keys d2).
  { unfold Dict.keys. rewrite Hd, map_app. reflexivity. }
  assert (Hd1 : Dict.keys d1 = first_seen before).
  { apply (NoDup_split_unique b _ _ (Dict.keys d2) extra).
    - rewrite <- Hkeys. exact Hfs.
    - rewrite <- Hkeys, Hk. apply first_seen_NoDup. }
  apply first_seen_In in Hm. rewrite <- Hd1 in Hm.
  apply keys_entry in Hm as [v' Hv'].
  assert (Hin' : (m, v') ∈ method_scores_of sim).
  { rewrite Hd. apply elem_of_app. left. exact Hv'. }
  rewrite <- (Hin _ _ Hin'), <- Hv. exact (H1 _ Hv').
Qed.

Lemma best_method_exists (self : Memory) (query : string) :
  similar_patterns self query <> [] -> exists b, best_method self query = Some b.
Proof.
  intros Hne. unfold best_method.
  destruct (method_scores_facts (similar_patterns self query)) as (Hk & _).
  cbn zeta in Hk.
  destruct (method_scores_of (similar_patterns self query)) as [|[k v] d] eqn:Hd.
  - exfalso. destruct (similar_patterns self query) as [|p sim]; [congruence|].
    assert (Hp : In (Pattern.method p) (first_seen (map Pattern.method (p :: sim)))).
    { apply first_seen_In. left. reflexivity. }
    rewrite <- Hk in Hp. exact Hp.
  - simpl. eauto.
Qed.

(** [suggest_method] in terms of the selected method and its share. *)
Lemma suggest_method_unfold (self : Memory) (query : string) :
  suggest_method self query =
    match best_method self query with
    | Some b => if Qltb (6 # 10) (share self query b) then Some b else None
    | None => None
    end.
Proof.
  destruct (best_method self query) as [b|] eqn:Hb.
  - destruct (best_method_first_max self query b Hb) as [_ Hc].
    unfold suggest_method, share. unfold best_method in Hb.
    fold (similar_patterns self query).
    destruct (patterns self) as [|p ps] eqn:Hp.
    { unfold similar_patterns in Hb. rewrite Hp in Hb. discriminate Hb. }
    cbv beta iota.
    destruct (similar_patterns self query) as [|s sim] eqn:Hs; [discriminate Hb|].
    cbv beta iota zeta. rewrite Hb, Hc. reflexivity.
  - unfold suggest_method. fold (similar_patterns self query).
    destruct (patterns self) as [|p ps]; [reflexivity|].
    destruct (similar_patterns self query) as [|s sim] eqn:Hs; [reflexivity|].
    unfold best_method in Hb. rewrite Hs in Hb. cbv beta iota zeta.
    rewrite Hb. reflexivity.
Qed.

(** The gate on the confidence, in whole numbers. *)
Lemma share_gate (c n : nat) :
  0 < n -> ((6 # 10) < Qnat c / Qnat n)%Q <-> 3 * n < 5 * c.
Proof.
  intros Hn. unfold Qnat.
  assert (Hpos : (0 < inject_Z (Z.of_nat n))%Q).
  { unfold Qlt. simpl. lia. }
  split.
  - intros H. apply (Qmult_lt_r _ _ _ Hpos) in H.
    unfold Qdiv in H. rewrite <- Qmult_assoc in H.
    rewrite (Qmult_comm (/ _)) in H. rewrite Qmult_inv_r in H.
    2:{ intros E. rewrite E in Hpos. discriminate. }
    rewrite Qmult_1_r in H. unfold Qlt, Qmult, inject_Z in H.
    cbn [Qnum Qden] in H. lia.
  - intros H. apply Qlt_shift_div_l; [exact Hpos|].
    unfold Qlt, Qmult, inject_Z. cbn [Qnum Qden]. lia.
Qed.

Lemma length_pos {A : Type} (l : list A) : l <> [] -> 0 < length l.
Proof. destruct l; [congruence | simpl; lia]. Qed.

(** A method is suggested exactly when its share of the successful
    records of the type exceeds 0.6. *)
Lemma suggest_method_iff_share (self : Memory) (query m : string) :
  suggest_method self query = Some m
  <-> similar_patterns self query <> []
      /\ ((6 # 10) < share self query m)%Q.
Proof.
  rewrite suggest_method_unfold. split.
  - destruct (best_method self query) as [b|] eqn:Hb; [|discriminate].
    destruct (Qltb (6 # 10) (share self query b)) eqn:Hg; [|discriminate].
    intros [= <-]. apply Qltb_iff in Hg. split; [|exact Hg].
    intros Hs. unfold best_method in Hb. rewrite Hs in Hb. discriminate Hb.
  - intros [Hne Hg].
    destruct (best_method_exists self query Hne) as [b Hb]. rewrite Hb.
    destruct (best_method_first_max self query b Hb) as [[Hle _] _].
    assert (Hbm : b = m).
    { destruct (string_dec b m) as [|Hdiff]; [assumption|]. exfalso.
      unfold share in Hg. apply share_gate in Hg; [|apply length_pos, Hne].
      pose proof (occurrences_two b m
                    (map Pattern.method (similar_patterns self query)) Hdiff)
        as Htwo.
      specialize (Hle m). rewrite length_map in Htwo. lia. }
    subst b. apply Qltb_iff in Hg. rewrite Hg. reflexivity.
Qed.

(** C1. [suggest_method] votes among the successful records of the type
    of the query, and among no others: records of another type and
    records without success are left out. It returns the method with the
    highest number of those records, the first such method in encounter
    order, if and only if the count of that method divided by the number
    of those records is strictly greater than 0.6, and returns nothing
    otherwise. With 3 of 5 records for a method, a confidence of exactly
    0.6, it returns nothing; with 2 of 3 records for a method it returns
    that method. *)
Theorem suggest_method_gate (self : Memory) (query : string) :
  let sim := similar_patterns self query in
  let methods := map Pattern.method sim in
  selects (successful_of_type (_classify_query query)) (patterns self) sim
  /\ (sim = [] -> suggest_method self query = None)
  /\ (sim <> [] -> exists b, best_method self query = Some b)
  /\ (forall b, best_method self query = Some b -> first_max b methods)
  /\ (forall m, suggest_method self query = Some m
                <-> best_method self query = Some m
                    /\ ((6 # 10) < share self query m)%Q)
  /\ (suggest_method self query = None
      <-> forall b, best_method self query = Some b ->
                    ~ ((6 # 10) < share self query b)%Q)
  /\ (forall m, length sim = 5 -> occurrences m methods = 3 ->
                share self query m == 6 # 10
                /\ suggest_method self query = None)
  /\ (forall m, length sim = 3 -> occurrences m methods = 2 ->
                suggest_method self query = Some m).
Proof.
  intros sim methods. subst sim methods.
  assert (Hiff : forall m, suggest_method self query = Some m
                           <-> best_method self query = Some m
                               /\ ((6 # 10) < share self query m)%Q).
  { intros m. rewrite suggest_method_unfold.
    destruct (best_method self query) as [b|]; [|split; [discriminate | intros [? _]; discriminate]].
    destruct (Qltb (6 # 10) (share self query b)) eqn:Hg.
    - apply Qltb_iff in Hg. split; [intros [= <-]; auto | intros [[= <-] _]; reflexivity].
    - apply Qltb_false_iff in Hg.
      split; [discriminate | intros [[= <-] Hlt]; contradiction]. }
  split; [|split; [|split; [|split; [|split; [|split; [|split]]]]]].
  - unfold similar_patterns. apply selects_filter. intros p. apply same_type_iff.
  - intros Hs. rewrite suggest_method_unfold. unfold best_method.
    rewrite Hs. reflexivity.
  - apply best_method_exists.
  - intros b Hb. apply (best_method_first_max self query b Hb).
  - exact Hiff.
  - split.
    + intros Hnone b Hb Hg.
      assert (Hsome : suggest_method self query = Some b) by (apply Hiff; auto).
      congruence.
    + intros Hall. destruct (suggest_method self query) as [m|] eqn:Hs; [|reflexivity].
      destruct (proj1 (Hiff m) eq_refl) as [Hb Hg]. exfalso. exact (Hall m Hb Hg).
  - intros m Hlen Hocc. split.
    + unfold share. rewrite Hlen, Hocc. reflexivity.
    + destruct (suggest_method self query) as [m'|] eqn:Hs; [|reflexivity].
      exfalso. apply suggest_method_iff_share in Hs as [Hne Hg].
      unfold share in Hg. apply share_gate in Hg; [|apply length_pos, Hne].
      rewrite Hlen in Hg.
      destruct (string_dec m m') as [<- | Hdiff]; [lia|].
      pose proof (occurrences_two m m'
                    (map Pattern.method (similar_patterns self query)) Hdiff)
        as Htwo.
      rewrite length_map, Hlen in Htwo. lia.
  - intros m Hlen Hocc. apply suggest_method_iff_share.
    assert (Hne : similar_patterns self query <> []).
    { intros Hs. rewrite Hs in Hlen. discriminate Hlen. }
    split; [exact Hne|]. unfold share.
    apply share_gate; [apply length_pos, Hne|]. lia.
Qed.

(** ** The running average *)

Lemma update_avg_zero (total : nat) (response_time : Q) :
  update_avg 0 total response_time = response_time.
Proof. reflexivity. Qed.

Lemma update_avg_nonzero (avg : Q) (total : nat) (response_time : Q) :
  ~ (avg == 0)%Q ->
  update_avg avg total response_time
  = ((avg * inject_Z (Z.of_nat total - 1) + response_time) / Qnat total)%Q.
Proof.
  intros Hne. unfold update_avg.
  destruct (Qeq_bool avg 0) eqn:E; [|reflexivity].
  apply Qeq_bool_iff in E. contradiction.
Qed.

Lemma record_times_cons (self : Memory) query method success t times :
  record_times self query method success (t :: times)
  = record_times (remember_query self query method success t 0 "")
                 query method success times.
Proof. reflexivity. Qed.

(** The specification's example: 10, 20, 30 average to 20. *)
Lemma running_average_example (query method : string) (success : bool) :
  (avg_response_time
     (stats (record_times fresh query method success [10; 20; 30]%Q)) == 20)%Q.
Proof.
  rewrite !record_times_cons. cbn [record_times fold_left].
  rewrite !remember_query_avg, !remember_query_total. reflexivity.
Qed.

(** While every recorded time is positive the stored average, times the
    number of records, is the sum of the times. *)
Lemma running_average_positive (query method : string) (success : bool)
    (times : list Q) :
  forall (self : Memory) (sum : Q),
    Forall (fun t => (0 < t)%Q) times ->
    (total_queries (stats self) = 0 /\ avg_response_time (stats self) = 0%Q
     /\ (sum == 0)%Q)
    \/ (0 < total_queries (stats self)
        /\ (0 < avg_response_time (stats self))%Q
        /\ (avg_response_time (stats self) * Qnat (total_queries (stats self))
            == sum)%Q) ->
    let self' := record_times self query method success times in
    total_queries (stats self') = total_queries (stats self) + length times
    /\ (avg_response_time (stats self') * Qnat (total_queries (stats self'))
        == sum + fold_right Qplus 0 times)%Q.
Proof.
  induction times as [|t times IH]; intros self sum Hpos Hinv; cbn zeta.
  - simpl. split; [lia|]. rewrite Qplus_0_r.
    destruct Hinv as [(Hn & Ha & Hs) | (Hn & Ha & Hs)]; [|exact Hs].
    rewrite Ha, Hs. reflexivity.
  - apply Forall_cons in Hpos as [Ht Hpos]. rewrite record_times_cons.
    set (self1 := remember_query self query method success t 0 "").
    assert (Htot : total_queries (stats self1) = total_queries (stats self) + 1)
      by apply remember_query_total.
    assert (Havg : avg_response_time (stats self1)
                   = update_avg (avg_response_time (stats self))
                                (total_queries (stats self) + 1) t)
      by apply remember_query_avg.
    assert (Hinv1 : 0 < total_queries (stats self1)
                    /\ (0 < avg_response_time (stats self1))%Q
                    /\ (avg_response_time (stats self1)
                        * Qnat (total_queries (stats self1)) == sum + t)%Q).
    { split; [lia|]. rewrite Havg, Htot.
      destruct Hinv as [(Hn & Ha & Hs) | (Hn & Ha & Hs)].
      - rewrite Ha, update_avg_zero, Hn, Hs. split; [exact Ht|].
        unfold Qnat. simpl. ring.
      - rewrite update_avg_nonzero by (intros E; rewrite E in Ha; discriminate Ha).
        set (a := avg_response_time (stats self)) in *.
        set (n := total_queries (stats self)) in *.
        assert (Hn1 : (0 < Qnat (n + 1))%Q).
        { unfold Qnat, Qlt. simpl. lia. }
        assert (Hnn : (inject_Z (Z.of_nat (n + 1) - 1) == Qnat n)%Q).
        { unfold Qnat. replace (Z.of_nat (n + 1) - 1)%Z with (Z.of_nat n) by lia.
          reflexivity. }
        assert (Hnum : (a * inject_Z (Z.of_nat (n + 1) - 1) + t == sum + t)%Q).
        { rewrite Hnn, Hs. reflexivity. }
        split.
        + apply Qlt_shift_div_l; [exact Hn1|]. rewrite Qmult_0_l, Hnn.
          assert (Hq : (0 <= Qnat n)%Q) by (unfold Qnat, Qle; simpl; lia).
          assert (Hp : (0 <= a * Qnat n)%Q).
          { apply Qmult_le_0_compat; [apply Qlt_le_weak, Ha | exact Hq]. }
          lra.
        + rewrite <- Hnum. field. intros E. rewrite E in Hn1. discriminate Hn1. }
    destruct (IH self1 (sum + t)%Q Hpos (or_intror Hinv1)) as [Hlen Hsum].
    cbn zeta in Hlen, Hsum. split.
    + rewrite Hlen, Htot. simpl. lia.
    + rewrite Hsum. simpl. ring.
Qed.

(** C5. The stored average is not the arithmetic mean of the recorded
    response times when the average so far is zero: the guard
    [avg_response_time == 0] then stores the new response time itself,
    whatever the number of records. After the times 0 and 10 the stored
    average is 10, where the running-average rule and the arithmetic mean
    both give 5. *)
Theorem running_average_zero_guard (query method : string) (success : bool) :
  let self := record_times fresh query method success [0; 10]%Q in
  total_queries (stats self) = 2
  /\ avg_response_time (stats self) = 10%Q
  /\ (mean [0; 10]%Q == 5)%Q
  /\ ((0 * inject_Z (2 - 1) + 10) / Qnat 2 == 5)%Q
  /\ ~ (avg_response_time (stats self) == mean [0; 10]%Q)%Q.
Proof.
  cbn zeta. rewrite !record_times_cons. cbn [record_times fold_left].
  rewrite !remember_query_avg, !remember_query_total.
  repeat split.
  intros H. discriminate H.
Qed.

(** From a fresh memory, positive response times are averaged exactly. *)
Lemma running_average_mean_positive (query method : string) (success : bool)
    (times : list Q) :
  times <> [] ->
  Forall (fun t => (0 < t)%Q) times ->
  (avg_response_time (stats (record_times fresh query method success times))
   == mean times)%Q.
Proof.
  intros Hne Hpos.
  destruct (running_average_positive query method success times fresh 0%Q Hpos)
    as [Hlen Hsum].
  { left. repeat split. }
  cbn zeta in Hlen, Hsum. simpl in Hlen. rewrite Hlen in Hsum.
  unfold mean. rewrite Qplus_0_l in Hsum. rewrite <- Hsum.
  field. intros E.
  assert (Hp : (0 < Qnat (length times))%Q).
  { unfold Qnat, Qlt. simpl. destruct times; [congruence | simpl; lia]. }
  rewrite E in Hp. discriminate Hp.
Qed.

(** ** Persistence and restarts *)

Lemma remember_query_files (self : Memory) query method success response_time
    citations_count now :
  let self' := remember_query self query method success response_time
                              citations_count now in
  if (length (patterns self') mod 5 =? 0)%nat
  then patterns_file self' = Some (patterns self')
       /\ stats_file self' = Some (stats self')
  else patterns_file self' = patterns_file self
       /\ stats_file self' = stats_file self.
Proof.
  cbn zeta. rewrite remember_query_patterns.
  unfold remember_query, _learn_from_pattern.
  cbn [set_patterns set_stats patterns stats].
  destruct success.
  - destruct (3 <=? _)%nat; cbn [set_patterns set_stats patterns stats];
      destruct (_ mod 5 =? 0)%nat; split; reflexivity.
  - destruct (_ mod 5 =? 0)%nat; split; reflexivity.
Qed.

(** A call that records nothing leaves the log, the two counters that
    follow it, and the two files alone. *)
Lemma perform_quiet (self : Memory) (c : Call) :
  recorded c = [] ->
  patterns (perform self c) = patterns self
  /\ total_queries (stats (perform self c)) = total_queries (stats self)
  /\ patterns_learned (stats (perform self c)) = patterns_learned (stats self)
  /\ patterns_file (perform self c) = patterns_file self
  /\ stats_file (perform self c) = stats_file self.
Proof.
  destruct c as [q m s rt cc now|q|q now|q res now| |mx clock]; simpl;
    intros Hq; try discriminate Hq.
  - repeat split.
  - destruct (get_cached_result_shape self q now) as [-> | [e ->]]; repeat split.
  - repeat split.
  - repeat split.
  - rewrite cleanup_volatile_unfold. repeat split.
Qed.

Lemma mod5_next (n : nat) :
  (S n) mod 5 <> 0 -> (S n) mod 5 = S (n mod 5).
Proof.
  intros Hne.
  pose proof (Nat.div_mod_eq n 5) as Hn.
  pose proof (Nat.div_mod_eq (S n) 5) as Hs.
  pose proof (Nat.mod_upper_bound n 5) as Hbn.
  pose proof (Nat.mod_upper_bound (S n) 5) as Hbs.
  lia.
Qed.

Lemma unsaved_tail_react (self : Memory) (ev : Event) :
  (exists tail, unsaved_tail self tail) ->
  exists tail, unsaved_tail (react self ev) tail.
Proof.
  intros [tail [Hlog Hlen]].
  destruct ev as [c|]; [|exists []; split; [symmetry; apply app_nil_r | simpl; lia]].
  destruct (recorded c) as [|p ps] eqn:Hrec.
  - destruct (perform_quiet self c Hrec) as (Hp & _ & _ & Hf & _).
    exists tail. unfold unsaved_tail. simpl. rewrite Hp, Hf. auto.
  - destruct c as [q m s rt cc now|q|q now|q res now| |mx clock];
      try discriminate Hrec. clear Hrec. simpl.
    pose proof (remember_query_files self q m s rt cc now) as Hfiles.
    cbn zeta in Hfiles. unfold unsaved_tail.
    destruct (length (patterns (remember_query self q m s rt cc now)) mod 5 =? 0)%nat
      eqn:Hmod.
    + destruct Hfiles as [Hpf _]. exists []. rewrite Hpf. simpl.
      split; [symmetry; apply app_nil_r | lia].
    + destruct Hfiles as [Hpf _]. apply Nat.eqb_neq in Hmod.
      rewrite Hpf. rewrite remember_query_patterns in *.
      exists (tail ++ [Pattern.mk q (_classify_query q) m s rt cc now]).
      split; [rewrite Hlog at 1; symmetry; apply app_assoc|].
      rewrite !length_app in *. cbn [length] in *.
      replace (length (patterns self) + 1) with (S (length (patterns self)))
        in * by lia.
      rewrite mod5_next by exact Hmod. lia.
Qed.

Lemma unsaved_tail_session (events : list Event) :
  forall self, (exists tail, unsaved_tail self tail) ->
               exists tail, unsaved_tail (session self events) tail.
Proof.
  induction events as [|ev events IH]; intros self Hinv; [exact Hinv|].
  simpl. apply IH, unsaved_tail_react, Hinv.
Qed.

(** X1. Whatever the files a memory was constructed over and whatever
    happened since (calls and restarts), the log is the content of the
    patterns file followed by at most 4 records: a restart loses no more
    than the last 4 records, and never a record from the middle. *)
Theorem restart_loses_at_most_four patterns_json stats_json
    (dir : gmap string (Cached.t Result)) (events : list Event) :
  let self := session (init patterns_json stats_json dir) events in
  exists tail, patterns self = patterns (restart self) ++ tail
               /\ length tail <= 4.
Proof.
  cbn zeta.
  destruct (unsaved_tail_session events (init patterns_json stats_json dir))
    as [tail [Hlog Hlen]].
  { exists []. split; [symmetry; apply app_nil_r | simpl; lia]. }
  exists tail. split; [exact Hlog|].
  pose proof (Nat.mod_upper_bound
                (length (patterns (session (init patterns_json stats_json dir)
                                           events))) 5) as Hb.
  lia.
Qed.

Lemma filter_success_bound (query_type method : string) (ps : list Pattern.t) :
  length (List.filter (same_type_method query_type method) ps)
  <= length (List.filter Pattern.success ps).
Proof.
  induction ps as [|p ps IH]; simpl; [lia|].
  unfold same_type_method at 1.
  destruct (Pattern.success p); rewrite ?andb_false_r, ?andb_true_r.
  - destruct (_ && _); simpl; lia.
  - exact IH.
Qed.

Lemma filter_success_snoc (ps : list Pattern.t) (p : Pattern.t) :
  length (List.filter Pattern.success (ps ++ [p]))
  = length (List.filter Pattern.success ps)
    + (if Pattern.success p then 1 else 0).
Proof.
  rewrite List.filter_app, length_app. simpl.
  destruct (Pattern.success p); reflexivity.
Qed.

Lemma counted_remember_query (self : Memory) query method success response_time
    citations_count now :
  counted (patterns self) (stats self) ->
  counted (patterns (remember_query self query method success response_time
                                    citations_count now))
          (stats (remember_query self query method success response_time
                                 citations_count now)).
Proof.
  intros [Htot Hlearn]. unfold counted.
  rewrite remember_query_total, remember_query_learned, remember_query_patterns.
  set (p := Pattern.mk query (_classify_query query) method success
                       response_time citations_count now).
  pose proof (filter_success_bound (_classify_query query) method
                                   (patterns self ++ [p])) as Hb.
  rewrite filter_success_snoc in *. rewrite length_app. cbn [length].
  split; [lia|].
  destruct success; cbn [andb Pattern.success p] in *.
  - destruct (3 <=? _)%nat eqn:Hthree; [apply Nat.leb_le in Hthree|]; lia.
  - lia.
Qed.

(** The counters stay in step with the log, and the files with each other. *)
Lemma in_step_react (self : Memory) (ev : Event) :
  counted (patterns self) (stats self) /\ files_in_step self ->
  counted (patterns (react self ev)) (stats (react self ev))
  /\ files_in_step (react self ev).
Proof.
  intros [Hc Hf]. destruct ev as [c|].
  - destruct (recorded c) as [|p ps] eqn:Hrec.
    + destruct (perform_quiet self c Hrec) as (Hp & Ht & Hl & Hpf & Hsf).
      simpl. unfold counted, files_in_step in *.
      rewrite Hp, Ht, Hl, Hpf, Hsf. split; [exact Hc | exact Hf].
    + destruct c as [q m s rt cc now|q|q now|q res now| |mx clock];
        try discriminate Hrec. clear Hrec. simpl.
      pose proof (counted_remember_query self q m s rt cc now Hc) as Hc'.
      split; [exact Hc'|].
      pose proof (remember_query_files self q m s rt cc now) as Hfiles.
      cbn zeta in Hfiles. unfold files_in_step.
      destruct (length (patterns (remember_query self q m s rt cc now)) mod 5 =? 0)%nat
        eqn:Hmod; destruct Hfiles as [-> ->].
      * apply Nat.eqb_eq in Hmod. split; assumption.
      * exact Hf.
  - simpl. unfold restart, init, files_in_step in *. simpl.
    destruct (patterns_file self) as [ps|], (stats_file self) as [st|];
      simpl; try contradiction.
    + destruct Hf as [Hps Hmod]. split; [exact Hps | split; assumption].
    + split; [|exact I]. split; simpl; lia.
Qed.

Lemma in_step_session (events : list Event) :
  forall self,
    counted (patterns self) (stats self) /\ files_in_step self ->
    counted (patterns (session self events)) (stats (session self events))
    /\ files_in_step (session self events).
Proof.
  induction events as [|ev events IH]; intros self Hinv; [exact Hinv|].
  simpl. apply IH, in_step_react, Hinv.
Qed.

Lemma in_step_init (dir : gmap string (Cached.t Result)) :
  counted (patterns (init None None dir)) (stats (init None None dir))
  /\ files_in_step (init None None dir).
Proof. repeat split; simpl; lia. Qed.

(** X2. Starting with no memory files, [total_queries] equals the number
    of records in the log at every moment, across calls and restarts. *)
Theorem total_queries_counts_records (dir : gmap string (Cached.t Result))
    (events : list Event) :
  let self := session (init None None dir) events in
  total_queries (stats self) = length (patterns self).
Proof.
  cbn zeta.
  destruct (in_step_session events _ (in_step_init dir)) as [[Htot _] _].
  exact Htot.
Qed.

(** X3. Starting with no memory files, [patterns_learned] never exceeds
    the number of successful records minus 2: nothing is learned before a
    third success, and each later success adds at most one. *)
Theorem patterns_learned_bound (dir : gmap string (Cached.t Result))
    (events : list Event) :
  let self := session (init None None dir) events in
  patterns_learned (stats self)
  <= length (List.filter Pattern.success (patterns self)) - 2.
Proof.
  cbn zeta.
  destruct (in_step_session events _ (in_step_init dir)) as [[_ Hl] _].
  exact Hl.
Qed.

(** ** More on the cache store *)

(** X4. [get_cached_result] counts what it returns: when it returns
    nothing the memory is exactly as before, and when it returns a result
    [cache_hits] has grown by one while the log, the files and the other
    counters are as before. *)
Theorem get_cached_result_accounting (self : Memory) (query : string) (now : Q) :
  let out := get_cached_result self query now in
  (fst out = None -> snd out = self)
  /\ (forall r, fst out = Some r ->
        cache_hits (stats (snd out)) = cache_hits (stats self) + 1
        /\ total_queries (stats (snd out)) = total_queries (stats self)
        /\ patterns_learned (stats (snd out)) = patterns_learned (stats self)
        /\ avg_response_time (stats (snd out)) = avg_response_time (stats self)
        /\ patterns (snd out) = patterns self
        /\ patterns_file (snd out) = patterns_file self
        /\ stats_file (snd out) = stats_file self
        /\ cache_dir (snd out) = cache_dir self).
Proof.
  cbn zeta. unfold get_cached_result, get_cached_from_file.
  destruct (cache self !! md5_hexdigest query) as [e|].
  - destruct (is_fresh now e).
    + split; [discriminate|]. intros r _. repeat split.
    + destruct (cache_dir self !! md5_hexdigest query) as [e'|];
        [destruct (is_fresh now e')|]; simpl;
        (split; [try discriminate; reflexivity
                | intros r Hr; try discriminate Hr; repeat split]).
  - destruct (cache_dir self !! md5_hexdigest query) as [e'|];
      [destruct (is_fresh now e')|]; simpl;
      (split; [try discriminate; reflexivity
              | intros r Hr; try discriminate Hr; repeat split]).
Qed.

Lemma files_unhit_react (self : Memory) (ev : Event) :
  files_unhit (cache_dir self) -> files_unhit (cache_dir (react self ev)).
Proof.
  intros Hinv. destruct ev as [c|]; [|exact Hinv].
  destruct c as [q m s rt cc now|q|q now|q res now| |mx clock]; simpl.
  - destruct (remember_query_cache self q m s rt cc now) as [_ ->]. exact Hinv.
  - exact Hinv.
  - destruct (get_cached_result_shape self q now) as [-> | [e ->]]; exact Hinv.
  - intros k e. unfold cache_result. simpl. rewrite lookup_insert.
    case_decide; [intros [= <-]; reflexivity | apply Hinv].
  - exact Hinv.
  - intros k e. rewrite cleanup_volatile_lookup.
    destruct (cache_dir self !! k) as [e'|] eqn:Hk; [|discriminate].
    destruct (is_old mx (clock k) e'); [discriminate|].
    intros [= <-]. exact (Hinv k e' Hk).
Qed.

Lemma files_unhit_session (events : list Event) :
  forall self, files_unhit (cache_dir self) ->
               files_unhit (cache_dir (session self events)).
Proof.
  induction events as [|ev events IH]; intros self Hinv; [exact Hinv|].
  simpl. apply IH, files_unhit_react, Hinv.
Qed.

(** X5. Hit counts are kept in memory only. If no cache file records a
    hit, none ever does, whatever the calls and restarts; so after a
    restart the entry a lookup loads from its file starts again from 0
    hits. *)
Theorem hit_counts_do_not_persist (self : Memory) (events : list Event) :
  files_unhit (cache_dir self) ->
  files_unhit (cache_dir (session self events))
  /\ forall query now e,
       cache (snd (get_cached_result (restart (session self events)) query now))
         !! md5_hexdigest query = Some e ->
       Cached.hits e = 0.
Proof.
  intros Hinv. pose proof (files_unhit_session events self Hinv) as Hfiles.
  split; [exact Hfiles|]. intros query now e.
  unfold get_cached_result, get_cached_from_file, restart, init. simpl.
  rewrite lookup_empty.
  destruct (cache_dir (session self events) !! md5_hexdigest query) as [e'|] eqn:Hk.
  - destruct (is_fresh now e'); simpl.
    + rewrite lookup_insert_eq. intros [= <-]. exact (Hfiles _ _ Hk).
    + rewrite lookup_empty. discriminate.
  - simpl. rewrite lookup_empty. discriminate.
Qed.

(** X6. A cache file survives a restart. The new process starts with an
    empty [self.cache], whatever it held before, so a lookup is answered
    from the file of the fingerprint: for a file read as the record [e],
    within the TTL of [e] the lookup returns the result of [e] and loads
    [e] into memory as it is; past the TTL it returns nothing and changes
    nothing. *)
Theorem cache_survives_restart (self : Memory) (query : string)
    (e : Cached.t Result) (now : Q) :
  cache_dir self !! md5_hexdigest query = Some e ->
  let self' := restart self in
  let out := get_cached_result self' query now in
  ((now - Cached.timestamp e < 3600)%Q ->
     fst out = Some (Cached.result e)
     /\ cache (snd out) = <[md5_hexdigest query := e]> ∅
     /\ cache_dir (snd out) = cache_dir self)
  /\ (~ (now - Cached.timestamp e < 3600)%Q -> out = (None, self')).
Proof.
  intros Hfile. cbn zeta.
  assert (Hm : cache (restart self) !! md5_hexdigest query = None)
    by apply lookup_empty.
  assert (Hd : cache_dir (restart self) !! md5_hexdigest query = Some e)
    by exact Hfile.
  split; intros Hage.
  - rewrite get_cached_result_fallthrough by (left; exact Hm).
    rewrite (get_cached_from_file_fresh _ _ _ _ Hd) by (apply is_fresh_iff, Hage).
    repeat split.
  - rewrite get_cached_result_fallthrough by (left; exact Hm).
    apply get_cached_from_file_miss. right. exists e. split; [exact Hd|].
    apply is_fresh_false_iff, Hage.
Qed.

(** ** More on cleanup *)

Lemma cleanup_volatile_count (self : Memory) (max_age_hours : Z)
    (clock : string -> Q) :
  fst (cleanup_volatile self max_age_hours clock)
  = size (filter (old_file max_age_hours clock) (cache_dir self)).
Proof.
  rewrite cleanup_volatile_unfold. simpl.
  destruct (cleanup_loop max_age_hours clock (map_to_list (cache_dir self))
                         (cache_dir self) 0) as [_ Hc].
  rewrite Hc. simpl.
  rewrite (map_filter_alt (old_file max_age_hours clock)).
  rewrite map_size_list_to_map; [reflexivity|].
  eapply sublist_NoDup; [apply (NoDup_fst_map_to_list (cache_dir self))|].
  apply fmap_sublist, sublist_filter.
Qed.

Lemma memory_eq (a b : Memory) :
  patterns a = patterns b -> cache a = cache b -> stats a = stats b ->
  patterns_file a = patterns_file b -> stats_file a = stats_file b ->
  cache_dir a = cache_dir b -> a = b.
Proof. destruct a, b. simpl. intros -> -> -> -> -> ->. reflexivity. Qed.

(** X7. Cleanup is idempotent: a second sweep with the same bound, that
    sees the same clock, removes nothing and returns 0. *)
Theorem cleanup_volatile_idempotent (self : Memory) (max_age_hours : Z)
    (clock : string -> Q) :
  let once := snd (cleanup_volatile self max_age_hours clock) in
  cleanup_volatile once max_age_hours clock = (0, once).
Proof.
  cbn zeta.
  set (once := snd (cleanup_volatile self max_age_hours clock)).
  assert (Hkeep : forall k e, cache_dir once !! k = Some e ->
                              is_old max_age_hours (clock k) e = false).
  { intros k e. unfold once. rewrite cleanup_volatile_lookup.
    destruct (cache_dir self !! k) as [e'|]; [|discriminate].
    destruct (is_old max_age_hours (clock k) e') eqn:Hold; [discriminate|].
    intros [= <-]. exact Hold. }
  rewrite (surjective_pairing (cleanup_volatile once max_age_hours clock)).
  f_equal.
  - rewrite cleanup_volatile_count. apply map_size_empty_iff.
    apply map_empty_filter. intros k e Hk Hold.
    unfold old_file in Hold. simpl in Hold.
    rewrite (Hkeep k e Hk) in Hold. discriminate Hold.
  - destruct (cleanup_volatile_cache once max_age_hours clock) as (Hc & Hp & Hs).
    apply memory_eq; auto.
    + rewrite cleanup_volatile_unfold. reflexivity.
    + rewrite cleanup_volatile_unfold. reflexivity.
    + apply map_eq. intros k. rewrite cleanup_volatile_lookup.
      destruct (cache_dir once !! k) as [e|] eqn:Hk; [|reflexivity].
      rewrite (Hkeep k e Hk). reflexivity.
Qed.

(** X8. With a bound of at least one hour, cleanup never removes a file
    that [get_cached_result] would still serve at that time: an entry
    within the TTL is not older than [max_age_hours]. *)
Theorem cleanup_spares_fresh_entries (self : Memory) (max_age_hours : Z)
    (now : Q) (k : string) (e : Cached.t Result) :
  (1 <= max_age_hours)%Z ->
  cache_dir self !! k = Some e ->
  is_fresh now e = true ->
  cache_dir (snd (cleanup_volatile self max_age_hours (fun _ => now))) !! k
  = Some e.
Proof.
  intros Hmax Hk Hfresh. rewrite cleanup_volatile_lookup, Hk.
  destruct (is_old max_age_hours now e) eqn:Hold; [|reflexivity].
  exfalso. apply is_old_iff in Hold. apply is_fresh_iff in Hfresh.
  assert (Hone : (1 <= inject_Z max_age_hours)%Q).
  { change 1%Q with (inject_Z 1). rewrite <- Zle_Qle. exact Hmax. }
  assert (Hdiv : ((now - Cached.timestamp e) / 3600 < 1)%Q).
  { apply Qlt_shift_div_r; [reflexivity|]. lra. }
  lra.
Qed.

(** ** More on suggestions *)

Lemma suggest_method_similar (self self' : Memory) (query : string) :
  similar_patterns self query = similar_patterns self' query ->
  suggest_method self query = suggest_method self' query.
Proof.
  intros H. rewrite !suggest_method_unfold. unfold best_method, share.
  rewrite H. reflexivity.
Qed.

(** X9. Only a successful record of the query's own type can change what
    [suggest_method] answers for a query: failed attempts, records of other
    types, cache traffic and cleanup leave every suggestion as it was. *)
Theorem suggestion_unaffected (self : Memory) (c : Call) (query : string) :
  match c with
  | CallRemember query' _ success _ _ _ =>
      success = false \/ _classify_query query' <> _classify_query query
  | _ => True
  end ->
  suggest_method (perform self c) query = suggest_method self query.
Proof.
  intros Hc. apply suggest_method_similar. unfold similar_patterns.
  rewrite perform_patterns, List.filter_app.
  destruct c as [q m s rt cc now|q|q now|q res now| |mx clock]; simpl;
    rewrite ?app_nil_r; try reflexivity.
  unfold same_type. simpl.
  destruct Hc as [-> | Hne].
  - rewrite andb_false_r. apply app_nil_r.
  - apply String.eqb_neq in Hne. rewrite Hne. apply app_nil_r.
Qed.

Lemma occurrences_all (m : string) (l : list string) :
  (forall x, In x l -> x = m) -> occurrences m l = length l.
Proof.
  unfold occurrences. induction l as [|x l IH]; intros Hall; [reflexivity|].
  simpl. rewrite (Hall x (or_introl eq_refl)), String.eqb_refl. simpl.
  rewrite IH; [reflexivity|]. intros y Hy. apply Hall. right. exact Hy.
Qed.

(** X10. When the log has successful records of the query's type and all
    of them used the same method, that method is suggested. *)
Theorem unanimous_suggestion (self : Memory) (query m : string) :
  similar_patterns self query <> [] ->
  (forall p, In p (similar_patterns self query) -> Pattern.method p = m) ->
  suggest_method self query = Some m.
Proof.
  intros Hne Hall. apply suggest_method_iff_share. split; [exact Hne|].
  unfold share. apply share_gate; [apply length_pos, Hne|].
  rewrite occurrences_all.
  - rewrite length_map. pose proof (length_pos _ Hne). lia.
  - intros x Hx. apply in_map_iff in Hx as [p [<- Hp]]. apply Hall, Hp.
Qed.

(** ** The insight report *)

Lemma tally_get (k k' : string) (d : list (string * nat)) :
  Dict.get k 0 (tally k' d)
  = Dict.get k 0 d + (if String.eqb k k' then 1 else 0).
Proof.
  unfold tally. destruct (String.eqb k k') eqn:E.
  - apply String.eqb_eq in E. subst k'. apply dict_get_set_eq.
  - apply String.eqb_neq in E. rewrite dict_get_set_ne by congruence. lia.
Qed.

Lemma insight_loop (ps : list Pattern.t) :
  forall query_types method_preferences,
    let out := fold_left insight_step ps (query_types, method_preferences) in
    (forall k, Dict.get k 0 (fst out)
               = Dict.get k 0 query_types + length (records_of_type k ps))
    /\ (forall k, Dict.get k 0 (snd out)
                  = Dict.get k 0 method_preferences
                    + length (successes_with Pattern.method k ps)).
Proof.
  induction ps as [|p ps IH]; intros qts prefs; cbn zeta.
  - simpl. split; intros k; lia.
  - cbn [fold_left]. unfold insight_step at 2 4.
    unfold records_of_type, successes_with in *. cbn [List.filter].
    destruct (Pattern.success p); cbn [andb];
      destruct (IH (tally (Pattern.query_type p) qts)
                   (if true then tally (Pattern.method p) prefs else prefs))
        as [IHq IHp];
      destruct (IH (tally (Pattern.query_type p) qts) prefs) as [IHq' IHp'];
      cbn zeta in *.
    + split; intros k.
      * rewrite IHq, tally_get.
        destruct (String.eqb k (Pattern.query_type p)); simpl; lia.
      * rewrite IHp, tally_get.
        destruct (String.eqb k (Pattern.method p)); simpl; lia.
    + split; intros k.
      * rewrite IHq', tally_get.
        destruct (String.eqb k (Pattern.query_type p)); simpl; lia.
      * rewrite IHp'. lia.
Qed.

(** X11. In the report of a non-empty log, [total_patterns] is the number
    of records, [query_types] counts for every type the records of that
    type, and [method_preferences] counts for every method its successful
    records; a key that is absent stands for a count of 0. *)
Theorem get_insights_tallies (self : Memory) :
  patterns self <> [] ->
  exists query_types method_preferences,
    has_field "total_patterns" (VInt (length (patterns self))) (get_insights self)
    /\ has_field "query_types" (VCounts query_types) (get_insights self)
    /\ has_field "method_preferences" (VCounts method_preferences)
                 (get_insights self)
    /\ (forall query_type,
          Dict.get query_type 0 query_types
          = length (records_of_type query_type (patterns self)))
    /\ (forall method,
          Dict.get method 0 method_preferences
          = length (successes_with Pattern.method method (patterns self))).
Proof.
  intros Hne. unfold get_insights, has_field.
  destruct (patterns self) as [|p ps] eqn:Hp; [congruence|]. rewrite <- Hp.
  destruct (insight_loop (patterns self) [] []) as [Hq Hm]. cbn zeta in Hq, Hm.
  destruct (fold_left insight_step (patterns self) ([], [])) as [qts prefs].
  exists qts, prefs. simpl in Hq, Hm.
  split; [left; reflexivity|].
  split; [do 3 right; left; reflexivity|].
  split; [do 4 right; left; reflexivity|].
  split; assumption.
Qed.

(** The loop over [best_combos] is the counting loop of [suggest_method]
    run on the successful records, keyed by combination. *)
Lemma combo_loop (ps : list Pattern.t) :
  forall d, fold_left combo_step ps d
            = fold_left score_step (map as_combo (List.filter Pattern.success ps)) d.
Proof.
  induction ps as [|p ps IH]; intros d; [reflexivity|].
  cbn [fold_left List.filter]. rewrite IH. unfold combo_step.
  destruct (Pattern.success p); reflexivity.
Qed.

Lemma total_time_snoc (ps : list Pattern.t) (p : Pattern.t) :
  total_time (ps ++ [p]) = (total_time ps + Pattern.response_time p)%Q.
Proof. unfold total_time. rewrite map_app, fold_left_app. reflexivity. Qed.

(** Before the averaging loop each entry holds the sum of the response
    times of the records of its method. *)
Lemma counting_loop_times (sim : list Pattern.t) (k : string) :
  avg_time (Dict.get k (mkScore 0 0) (fold_left score_step sim []))
  = total_time (List.filter (fun p => String.eqb k (Pattern.method p)) sim).
Proof.
  induction sim as [|p sim IH] using rev_ind; [reflexivity|].
  rewrite fold_left_app, List.filter_app. cbn [fold_left List.filter].
  rewrite score_step_eq. cbn zeta.
  destruct (String.eqb k (Pattern.method p)) eqn:E.
  - apply String.eqb_eq in E. subst k.
    rewrite dict_get_set_eq, total_time_snoc. simpl. rewrite IH. reflexivity.
  - apply String.eqb_neq in E.
    rewrite dict_get_set_ne by congruence. rewrite app_nil_r. exact IH.
Qed.

Lemma occurrences_map (key : Pattern.t -> string) (k : string)
    (ps : list Pattern.t) :
  occurrences k (map key ps)
  = length (List.filter (fun p => String.eqb k (key p)) ps).
Proof.
  unfold occurrences. induction ps as [|p ps IH]; [reflexivity|]. simpl.
  destruct (String.eqb k (key p)); simpl; rewrite IH; reflexivity.
Qed.

Lemma filter_as_combo (k : string) (ps : list Pattern.t) :
  map Pattern.response_time
      (List.filter (fun p => String.eqb k (Pattern.method p))
                   (map as_combo (List.filter Pattern.success ps)))
  = map Pattern.response_time (successes_with combo_key k ps).
Proof.
  unfold successes_with. induction ps as [|p ps IH]; [reflexivity|]. simpl.
  destruct (Pattern.success p); simpl; [|exact IH].
  destruct (String.eqb k (combo_key p)); simpl; rewrite IH; reflexivity.
Qed.

Lemma average_times_entry (d : list (string * Score)) (k : string) (s : Score) :
  (k, s) ∈ average_times d ->
  exists s0, (k, s0) ∈ d
             /\ s = mkScore (count s0) (avg_time s0 / Qnat (count s0))%Q.
Proof.
  unfold average_times. intros Hin.
  apply list_elem_of_fmap in Hin as [[k0 s0] [Heq Hin]].
  simpl in Heq. injection Heq as -> ->. exists s0. auto.
Qed.

Lemma occurrences_pos (k : string) (l : list string) :
  In k l -> 0 < occurrences k l.
Proof.
  unfold occurrences. induction l as [|x l IH]; intros Hin; [contradiction|].
  simpl. destruct (String.eqb k x) eqn:E; [simpl; lia|].
  destruct Hin as [-> | Hin]; [rewrite String.eqb_refl in E; discriminate|].
  apply IH, Hin.
Qed.

(** What an entry of [best_combos] holds after the averaging loop. *)
Lemma best_combos_entry (ps : list Pattern.t) (k : string) (s : Score) :
  (k, s) ∈ average_times (fold_left combo_step ps []) ->
  count s = length (successes_with combo_key k ps)
  /\ 0 < count s
  /\ avg_time s = (total_time (successes_with combo_key k ps) / Qnat (count s))%Q.
Proof.
  rewrite combo_loop. set (sim := map as_combo (List.filter Pattern.success ps)).
  intros Hin. apply average_times_entry in Hin as [s0 [Hin ->]]. simpl.
  destruct (counting_loop sim) as [Hk Hc]. cbn zeta in Hk, Hc.
  assert (Hget : Dict.get k (mkScore 0 0) (fold_left score_step sim []) = s0).
  { apply dict_get_in; [|exact Hin]. rewrite Hk. apply first_seen_NoDup. }
  assert (Hcount : count s0 = length (successes_with combo_key k ps)).
  { rewrite <- Hget, Hc, occurrences_map.
    rewrite <- (length_map Pattern.response_time), <- (length_map Pattern.response_time).
    unfold sim. rewrite filter_as_combo. reflexivity. }
  split; [exact Hcount|]. split.
  - rewrite <- Hget, Hc. apply occurrences_pos, first_seen_In. rewrite <- Hk.
    apply list_elem_of_In. apply list_elem_of_fmap. exists (k, s0). auto.
  - f_equal. rewrite <- Hget, counting_loop_times. unfold total_time, sim.
    rewrite filter_as_combo. reflexivity.
Qed.

Lemma insert_by_count_perm (x : string * Score) (l : list (string * Score)) :
  insert_by_count x l ≡ₚ x :: l.
Proof.
  induction l as [|y l IH]; simpl; [reflexivity|].
  destruct (count (snd x) <? count (snd y))%nat; [|reflexivity].
  rewrite IH. apply Permutation_swap.
Qed.

Lemma sorted_by_count_perm (l : list (string * Score)) :
  sorted_by_count l ≡ₚ l.
Proof.
  unfold sorted_by_count. induction l as [|x l IH]; simpl; [reflexivity|].
  rewrite insert_by_count_perm, IH. reflexivity.
Qed.

Lemma insert_by_count_descending (x : string * Score) (l : list (string * Score)) :
  descending l -> descending (insert_by_count x l).
Proof.
  unfold descending. induction l as [|y l IH]; intros Hs; simpl.
  - repeat constructor.
  - apply StronglySorted_inv in Hs as [Hl Hy].
    destruct (count (snd x) <? count (snd y))%nat eqn:E.
    + apply Nat.ltb_lt in E. constructor; [apply IH, Hl|].
      apply Forall_forall. intros z Hz.
      rewrite insert_by_count_perm in Hz.
      apply elem_of_cons in Hz as [-> | Hz]; [lia|].
      rewrite Forall_forall in Hy. apply Hy, Hz.
    + apply Nat.ltb_ge in E. constructor; [constructor; assumption|].
      constructor; [exact E|].
      rewrite Forall_forall in *. intros z Hz. specialize (Hy z Hz). lia.
Qed.

Lemma sorted_by_count_descending (l : list (string * Score)) :
  descending (sorted_by_count l).
Proof.
  unfold sorted_by_count. induction l as [|x l IH]; simpl.
  - constructor.
  - apply insert_by_count_descending, IH.
Qed.

(** X12. In the report of a non-empty log, [best_combinations] lists at
    most 3 combinations in order of decreasing count. Each listed entry
    holds the number of successful records of its combination and the
    arithmetic mean of their response times, and every combination with a
    success that is not listed has no more successes than any listed one. *)
Theorem best_combinations_top (self : Memory) :
  patterns self <> [] ->
  exists top,
    has_field "best_combinations" (VCombos top) (get_insights self)
    /\ length top <= 3
    /\ descending top
    /\ (forall k s, (k, s) ∈ top ->
          count s = length (successes_with combo_key k (patterns self))
          /\ 0 < count s
          /\ avg_time s
             = (total_time (successes_with combo_key k (patterns self))
                / Qnat (count s))%Q)
    /\ (forall k, successes_with combo_key k (patterns self) <> [] ->
          (exists s, (k, s) ∈ top)
          \/ forall a, a ∈ top ->
               length (successes_with combo_key k (patterns self))
               <= count (snd a)).
Proof.
  intros Hne.
  set (combos := average_times (fold_left combo_step (patterns self) [])).
  exists (take 3 (sorted_by_count combos)).
  pose proof (sorted_by_count_descending combos) as Hdesc.
  pose proof (sorted_by_count_perm combos) as Hperm.
  rewrite <- (take_drop 3 (sorted_by_count combos)) in Hdesc.
  unfold descending in *. apply StronglySorted_app in Hdesc as (Hcross & Htop & _).
  split; [|split; [|split; [|split]]].
  - unfold get_insights, has_field.
    destruct (patterns self) as [|p ps] eqn:Hp; [congruence|].
    subst combos. rewrite <- Hp.
    destruct (fold_left insight_step (patterns self) ([], [])) as [qts prefs].
    do 5 right. left. reflexivity.
  - rewrite length_take. lia.
  - exact Htop.
  - intros k s Hin. apply best_combos_entry. fold combos.
    rewrite <- Hperm. apply (subseteq_take 3). exact Hin.
  - intros k Hk.
    assert (Hkey : exists s, (k, s) ∈ combos).
    { apply keys_entry. unfold combos. rewrite average_times_keys, combo_loop.
      destruct (counting_loop
                  (map as_combo (List.filter Pattern.success (patterns self))))
        as [-> _].
      apply first_seen_In. rewrite map_map. simpl.
      unfold successes_with in Hk.
      clear -Hk. induction (patterns self) as [|p ps IH]; [contradiction Hk; reflexivity|].
      simpl in *. destruct (Pattern.success p); simpl in *.
      - destruct (String.eqb k (combo_key p)) eqn:E.
        + left. symmetry. apply String.eqb_eq, E.
        + right. apply IH, Hk.
      - apply IH, Hk. }
    destruct Hkey as [s Hs].
    pose proof (best_combos_entry (patterns self) k s Hs) as [Hcount _].
    rewrite <- Hperm, <- (take_drop 3 (sorted_by_count combos)) in Hs.
    apply elem_of_app in Hs as [Hs | Hs].
    + left. exists s. exact Hs.
    + right. intros a Ha. rewrite <- Hcount. exact (Hcross a (k, s) Ha Hs).
Qed.

(** ** The router's bookkeeping *)

Lemma any_in_incl (words words' : list string) (query_lower : string) :
  incl words words' ->
  any_in words query_lower = true -> any_in words' query_lower = true.
Proof.
  clear md5_hexdigest.
  unfold any_in. rewrite !existsb_exists. intros Hincl [w [Hw Hc]].
  exists w. split; [apply Hincl, Hw | exact Hc].
Qed.

Lemma any_in_cons (w : string) (words : list string) (query_lower : string) :
  any_in (w :: words) query_lower
  = Str.contains w query_lower || any_in words query_lower.
Proof. reflexivity. Qed.

(** X13. The detector of the router and the classifier of the memory
    agree: a query the detector takes for a comprehensive analysis is
    classified so; one it takes for a technical question is classified as
    a technical implementation unless it mentions a comparison, which the
    classifier ranks first; and a query the detector passes over is
    classified as comprehensive or technical only for the keyword the
    detector lacks ("comparison", "example"). *)
Theorem detector_agrees_with_classifier (decision : Decision) :
  let query := decision_query decision in
  (forall p, _detect_pattern decision = Some p ->
             detected_type p = "comprehensive_analysis" ->
             _classify_query query = "comprehensive_analysis")
  /\ (forall p, _detect_pattern decision = Some p ->
                detected_type p = "technical_question" ->
                _classify_query query = "technical_implementation"
                \/ (_classify_query query = "comprehensive_analysis"
                    /\ Str.contains "comparison" (Str.lower query) = true))
  /\ (_detect_pattern decision = None ->
      (_classify_query query = "comprehensive_analysis" ->
       Str.contains "comparison" (Str.lower query) = true)
      /\ (_classify_query query = "technical_implementation" ->
          Str.contains "example" (Str.lower query) = true)).
Proof.
  cbn zeta. unfold _detect_pattern, _classify_query. cbn zeta.
  rewrite !any_in_cons.
  set (q := Str.lower (decision_query decision)).
  destruct (Str.contains "landscape" q), (Str.contains "comprehensive" q),
    (Str.contains "analyze" q), (Str.contains "comparison" q),
    (Str.contains "how to" q), (Str.contains "implement" q),
    (Str.contains "code" q), (Str.contains "example" q);
    cbn [orb any_in existsb];
    (split; [|split]);
    try (intros p [= <-]; simpl; intros Ht; try discriminate Ht; auto; fail);
    try (intros Hn; try discriminate Hn; split; intros Hc; try reflexivity;
         repeat match type of Hc with
                | context [if ?b then _ else _] => destruct b
                end; discriminate Hc).
Qed.

Lemma div5_next (n : nat) :
  S n / 5 = n / 5 + (if (S n mod 5 =? 0)%nat then 1 else 0).
Proof.
  pose proof (Nat.div_mod_eq n 5) as Hn.
  pose proof (Nat.div_mod_eq (S n) 5) as Hs.
  pose proof (Nat.mod_upper_bound n 5) as Hbn.
  pose proof (Nat.mod_upper_bound (S n) 5) as Hbs.
  destruct (S n mod 5 =? 0)%nat eqn:E;
    [apply Nat.eqb_eq in E | apply Nat.eqb_neq in E]; lia.
Qed.

Lemma record_routing_decision_step (self : DeepThink) context method_used
    citations elapsed today :
  let self' := _record_routing_decision self context method_used citations
                                        elapsed today in
  length (route_history self') = S (length (route_history self))
  /\ length (default [] (evolution self' !! routing_file today))
     = length (default [] (evolution self !! routing_file today))
       + (if (S (length (route_history self)) mod 5 =? 0)%nat then 1 else 0)
  /\ forall f, f <> routing_file today ->
               evolution self' !! f = evolution self !! f.
Proof.
  cbn zeta. unfold _record_routing_decision. cbn [route_history evolution].
  rewrite length_app. cbn [length]. rewrite Nat.add_1_r.
  destruct (S (length (route_history self)) mod 5 =? 0)%nat.
  - unfold _save_evolution_entry. cbn [route_history evolution].
    rewrite ?length_app, ?Nat.add_1_r. split; [reflexivity|]. split.
    + rewrite lookup_insert_eq. simpl.
      destruct (evolution self !! routing_file today); simpl;
        rewrite ?length_app; simpl; lia.
    + intros f Hf. apply lookup_insert_ne. congruence.
  - cbn [route_history evolution]. rewrite ?length_app. cbn [length].
    rewrite ?Nat.add_1_r. split; [reflexivity|]. split; [lia | reflexivity].
Qed.

(** X14. The evolution file of the day receives one entry for each
    decision whose position in [route_history] is a multiple of 5, and
    nothing else changes: after [n] decisions recorded on one day, the
    history has grown by [n], the file of the day by the number of
    multiples of 5 passed, and every other file is as before. *)
Theorem every_fifth_decision_is_logged (today : string) (calls : list Routed) :
  forall self,
    let self' := record_all self today calls in
    let h := length (route_history self) in
    length (route_history self') = h + length calls
    /\ length (default [] (evolution self' !! routing_file today))
       = length (default [] (evolution self !! routing_file today))
         + ((h + length calls) / 5 - h / 5)
    /\ forall f, f <> routing_file today ->
                 evolution self' !! f = evolution self !! f.
Proof.
  clear md5_hexdigest.
  induction calls as [|r calls IH]; intros self; cbn zeta.
  - simpl. rewrite !Nat.add_0_r. split; [reflexivity|].
    split; [lia | reflexivity].
  - cbn [record_all fold_left].
    pose proof (record_routing_decision_step self (routed_context r)
                  (routed_method r) (routed_citations r) (routed_elapsed r) today)
      as (Hh & He & Hf).
    cbn zeta in Hh, He, Hf.
    set (self1 := _record_routing_decision self (routed_context r)
                    (routed_method r) (routed_citations r) (routed_elapsed r)
                    today) in *.
    destruct (IH self1) as (IHh & IHe & IHf). cbn zeta in IHh, IHe, IHf.
    fold (record_all self1 today calls).
    split; [rewrite IHh, Hh; simpl; lia|]. split.
    + rewrite IHe, He, Hh. cbn [length].
      replace (length (route_history self) + S (length calls))
        with (S (length (route_history self)) + length calls) by lia.
      pose proof (div5_next (length (route_history self))) as Hd.
      assert (Hmono : S (length (route_history self)) / 5
                      <= (S (length (route_history self)) + length calls) / 5).
      { apply Nat.Div0.div_le_mono. lia. }
      destruct (S (length (route_history self)) mod 5 =? 0)%nat; lia.
    + intros f Hne. rewrite IHf by exact Hne. apply Hf, Hne.
Qed.

(** A dict whose keys are the distinct methods in encounter order and
    whose entries count them yields, by [max], the first method with the
    highest count. *)
Lemma first_max_of_dict (d : list (string * Score)) (methods : list string)
    (b : string) :
  Dict.keys d = first_seen methods ->
  (forall k v, (k, v) ∈ d -> count v = occurrences k methods) ->
  max_by_count d = Some b ->
  first_max b methods.
Proof.
  intros Hk Hin Hmax.
  apply max_by_count_spec in Hmax as (d1 & v & d2 & Hd & H1 & H2).
  assert (Hbv : (b, v) ∈ d).
  { rewrite Hd. apply elem_of_app. right. left. }
  assert (Hv : count v = occurrences b methods) by (apply Hin, Hbv).
  split.
  - intros m. destruct (in_dec string_dec m methods) as [Hm | Hm].
    + apply first_seen_In in Hm. rewrite <- Hk in Hm.
      apply keys_entry in Hm as [v' Hv'].
      rewrite <- (Hin _ _ Hv'), <- Hv. rewrite Hd in Hv'.
      apply elem_of_app in Hv' as [Hv' | Hv'].
      * apply Nat.lt_le_incl. exact (H1 _ Hv').
      * apply elem_of_cons in Hv' as [Heq | Hv'].
        -- injection Heq as _ ->. lia.
        -- exact (H2 _ Hv').
    + rewrite (occurrences_absent _ _ Hm). lia.
  - assert (Hb : b ∈ methods).
    { apply list_elem_of_In, first_seen_In. rewrite <- Hk.
      unfold Dict.keys. rewrite Hd, map_app. apply in_elt. }
    apply list_elem_of_split_l in Hb as (before & after & Hsplit & Hnb).
    exists before, after. split; [exact Hsplit|].
    split; [rewrite <- list_elem_of_In; exact Hnb|].
    intros m Hm.
    destruct (first_seen_split before after b) as [extra Hfs].
    { rewrite <- list_elem_of_In. exact Hnb. }
    rewrite <- Hsplit, <- Hk in Hfs.
    assert (Hkeys : Dict.keys d = Dict.keys d1 ++ b :: Dict.keys d2).
    { unfold Dict.keys. rewrite Hd, map_app. reflexivity. }
    assert (Hd1 : Dict.keys d1 = first_seen before).
    { apply (NoDup_split_unique b _ _ (Dict.keys d2) extra).
      - rewrite <- Hkeys. exact Hfs.
      - rewrite <- Hkeys, Hk. apply first_seen_NoDup. }
    apply first_seen_In in Hm. rewrite <- Hd1 in Hm.
    apply keys_entry in Hm as [v' Hv'].
    assert (Hin' : (m, v') ∈ d).
    { rewrite Hd. apply elem_of_app. left. exact Hv'. }
    rewrite <- (Hin _ _ Hin'), <- Hv. exact (H1 _ Hv').
Qed.

Lemma tally_loop (methods : list string) :
  let d := fold_left (fun d m => tally m d) methods [] in
  Dict.keys d = first_seen methods
  /\ forall k, Dict.get k 0 d = occurrences k methods.
Proof.
  clear md5_hexdigest.
  induction methods as [|m methods IH] using rev_ind; [split; reflexivity|].
  destruct IH as [IHk IHc]. cbn zeta. rewrite fold_left_app. cbn [fold_left].
  split.
  - unfold tally at 1. rewrite dict_keys_set, IHk. unfold first_seen.
    rewrite fold_left_app. reflexivity.
  - intros k. rewrite tally_get, IHc, occurrences_snoc. reflexivity.
Qed.

Lemma max_by_value_from_as_count (d : list (string * nat)) :
  forall best best_value,
    max_by_value_from best best_value d
    = max_by_count_from best best_value (as_scores d).
Proof.
  induction d as [|[k v] d IH]; intros best best_value; [reflexivity|].
  simpl. destruct (best_value <? v)%nat; apply IH.
Qed.

Lemma max_by_value_as_count (d : list (string * nat)) :
  max_by_value d = max_by_count (as_scores d).
Proof.
  destruct d as [|[k v] d]; [reflexivity|]. simpl.
  rewrite max_by_value_from_as_count. reflexivity.
Qed.

Lemma statistics_loop (history : list Decision) :
  forall methods_used total total_citations,
    fold_left statistics_step history (methods_used, total, total_citations)
    = (fold_left (fun d m => tally m d) (map method_selected history) methods_used,
       fold_left Qplus (map elapsed_seconds history) total,
       total_citations + list_sum (map decision_citations history)).
Proof.
  induction history as [|d history IH]; intros mu t c; simpl.
  - rewrite Nat.add_0_r. reflexivity.
  - rewrite IH. rewrite Nat.add_assoc. reflexivity.
Qed.

(** X15. [get_statistics] of a router that has recorded decisions reports
    their number, for every method the number of decisions that selected
    it, as preferred method the first method in encounter order with the
    highest number, the total of the elapsed times divided by the number
    of decisions, and the total of the citation counts; with no decision
    recorded it returns the message alone. *)
Theorem get_statistics_report (self : DeepThink) :
  let history := route_history self in
  let methods := map method_selected history in
  (history = [] ->
     get_statistics self = [("message", SText "No research performed yet")])
  /\ (history <> [] ->
      exists distribution preferred,
        has_field "total_queries" (SInt (length history)) (get_statistics self)
        /\ has_field "methods_distribution" (SCounts distribution)
                     (get_statistics self)
        /\ (forall m, Dict.get m 0 distribution = occurrences m methods)
        /\ has_field "preferred_method" (SText preferred) (get_statistics self)
        /\ first_max preferred methods
        /\ has_field "avg_response_time"
             (SNum (fold_left Qplus (map elapsed_seconds history) 0
                    / Qnat (length history))%Q)
             (get_statistics self)
        /\ has_field "total_citations"
             (SInt (list_sum (map decision_citations history)))
             (get_statistics self)).
Proof.
  clear md5_hexdigest.
  cbn zeta. unfold get_statistics, has_field. split.
  - intros ->. reflexivity.
  - intros Hne. destruct (route_history self) as [|d0 history] eqn:Hh;
      [congruence|]. rewrite <- Hh in *. clear Hh.
    rewrite statistics_loop.
    destruct (tally_loop (map method_selected (route_history self))) as [Hk Hc].
    cbn zeta in Hk, Hc.
    set (dist := fold_left (fun d m => tally m d)
                           (map method_selected (route_history self)) []) in *.
    assert (Hmax : exists b, max_by_value dist = Some b).
    { destruct dist as [|[k v] dist'] eqn:Hd; [|simpl; eauto].
      exfalso. destruct (route_history self) as [|d1 h]; [congruence|].
      assert (Hin : In (method_selected d1)
                       (first_seen (map method_selected (d1 :: h)))).
      { apply first_seen_In. left. reflexivity. }
      rewrite <- Hk in Hin. exact Hin. }
    destruct Hmax as [b Hb]. exists dist, b. rewrite Hb.
    split; [left; reflexivity|].
    split; [do 3 right; left; reflexivity|].
    split; [exact Hc|].
    split; [do 4 right; left; reflexivity|].
    split.
    + apply (first_max_of_dict (as_scores dist)).
      * unfold Dict.keys, as_scores. rewrite map_map. exact Hk.
      * intros k v Hin. unfold as_scores in Hin.
        apply list_elem_of_fmap in Hin as [[k0 n] [Heq Hin]].
        simpl in Heq. injection Heq as -> ->. simpl.
        rewrite <- Hc. symmetry. apply dict_get_in; [|exact Hin].
        rewrite Hk. apply first_seen_NoDup.
      * rewrite <- max_by_value_as_count. exact Hb.
    + split; [right; left; reflexivity|].
      do 2 right. left. reflexivity.
Qed.

(** ** The wake-up report *)

Lemma load_memory_stats_values (patterns_json : option (list Pattern.t))
    (stats_json : option Stats) :
  Dict.get "patterns" (SInt 0) (load_memory_stats patterns_json stats_json)
  = SInt (length (_load_patterns patterns_json))
  /\ Dict.get "total_queries" (SInt 0)
              (load_memory_stats patterns_json stats_json)
     = SInt (total_queries (_load_stats stats_json)).
Proof.
  clear md5_hexdigest.
  destruct patterns_json, stats_json; split; reflexivity.
Qed.

(** X16. Starting with no memory files, what the wake-up report shows
    after any calls and restarts of the memory is the log rounded down
    to the last save: its [patterns] and its [total_queries] both equal
    the largest multiple of 5 not above the number of records. *)
Theorem wake_up_reports_saved_records (dir : gmap string (Cached.t Result))
    (events : list Event) :
  let self := session (init None None dir) events in
  let report := load_memory_stats (patterns_file self) (stats_file self) in
  let saved := 5 * (length (patterns self) / 5) in
  Dict.get "patterns" (SInt 0) report = SInt saved
  /\ Dict.get "total_queries" (SInt 0) report = SInt saved.
Proof.
  cbn zeta. set (self := session (init None None dir) events).
  destruct (load_memory_stats_values (patterns_file self) (stats_file self))
    as [-> ->].
  destruct (in_step_session events _ (in_step_init dir)) as [_ Hfiles].
  destruct (unsaved_tail_session events (init None None dir))
    as [tail [Hlog Hlen]].
  { exists []. split; [reflexivity | simpl; lia]. }
  fold self in Hfiles, Hlog, Hlen.
  pose proof (Nat.div_mod_eq (length (patterns self)) 5) as Hdm.
  pose proof (Nat.mod_upper_bound (length (patterns self)) 5) as Hub.
  unfold files_in_step in Hfiles.
  destruct (patterns_file self) as [ps|], (stats_file self) as [st|];
    try contradiction; cbn [_load_patterns _load_stats app] in *.
  - destruct Hfiles as [[Htot _] Hmod].
    pose proof (Nat.div_mod_eq (length ps) 5) as Hps.
    rewrite Hlog, length_app in *. rewrite Htot.
    assert (Hsaved : length ps = 5 * ((length ps + length tail) / 5)) by lia.
    rewrite <- Hsaved. split; reflexivity.
  - rewrite Hlog in *. cbn [fresh_stats total_queries length].
    assert (Hzero : 5 * (length tail / 5) = 0) by lia.
    rewrite Hzero. split; reflexivity.
Qed.

(** ** More on the recorder *)

(** X17. [get_cached_result] never serves an expired entry: whatever the
    state of the two stores, a result it returns is the result of an entry
    stored under the fingerprint of the query, in memory or on disk, that
    is less than 3600 seconds old. *)
Theorem get_cached_result_never_stale (self : Memory) (query : string)
    (now : Q) (r : Result) :
  fst (get_cached_result self query now) = Some r ->
  exists e, (cache self !! md5_hexdigest query = Some e
             \/ cache_dir self !! md5_hexdigest query = Some e)
            /\ Cached.result e = r
            /\ (now - Cached.timestamp e < 3600)%Q.
Proof.
  unfold get_cached_result, get_cached_from_file.
  destruct (cache self !! md5_hexdigest query) as [e|] eqn:Hm.
  - destruct (is_fresh now e) eqn:Hf.
    + simpl. intros [= <-]. exists e. split; [left; reflexivity|].
      split; [reflexivity | apply is_fresh_iff, Hf].
    + destruct (cache_dir self !! md5_hexdigest query) as [e'|] eqn:Hd;
        [|discriminate].
      destruct (is_fresh now e') eqn:Hf'; [|discriminate].
      simpl. intros [= <-]. exists e'. split; [right; reflexivity|].
      split; [reflexivity | apply is_fresh_iff, Hf'].
  - destruct (cache_dir self !! md5_hexdigest query) as [e'|] eqn:Hd;
      [|discriminate].
    destruct (is_fresh now e') eqn:Hf'; [|discriminate].
    simpl. intros [= <-]. exists e'. split; [right; reflexivity|].
    split; [reflexivity | apply is_fresh_iff, Hf'].
Qed.

Lemma well_classified_react (self : Memory) (ev : Event) :
  well_classified (patterns self)
  /\ well_classified (_load_patterns (patterns_file self)) ->
  well_classified (patterns (react self ev))
  /\ well_classified (_load_patterns (patterns_file (react self ev))).
Proof.
  intros [Hp Hf]. destruct ev as [c|]; [|split; exact Hf].
  destruct (recorded c) as [|p ps] eqn:Hrec.
  - destruct (perform_quiet self c Hrec) as (Hq1 & _ & _ & Hq2 & _).
    cbn [react]. rewrite Hq1, Hq2. split; assumption.
  - destruct c as [q m s rt cc now|q|q now|q res now| |mx clock];
      try discriminate Hrec. clear Hrec. simpl.
    assert (Hp' : well_classified (patterns (remember_query self q m s rt cc now))).
    { rewrite remember_query_patterns. apply Forall_app. split; [exact Hp|].
      repeat constructor. }
    split; [exact Hp'|].
    pose proof (remember_query_files self q m s rt cc now) as Hfiles.
    cbn zeta in Hfiles.
    destruct (length (patterns (remember_query self q m s rt cc now)) mod 5 =? 0)%nat;
      destruct Hfiles as [-> _]; [exact Hp' | exact Hf].
Qed.

Lemma well_classified_session (events : list Event) :
  forall self,
    well_classified (patterns self)
    /\ well_classified (_load_patterns (patterns_file self)) ->
    well_classified (patterns (session self events))
    /\ well_classified (_load_patterns (patterns_file (session self events))).
Proof.
  induction events as [|ev events IH]; intros self Hinv; [exact Hinv|].
  simpl. apply IH, well_classified_react, Hinv.
Qed.

(** X18. Starting with no memory files, every record of the log, at every
    moment and across restarts, carries the type that [_classify_query]
    gives to its own query, one of the five query types: the recorder and
    the suggestion engine never disagree on the type of a query. *)
Theorem log_is_well_classified (dir : gmap string (Cached.t Result))
    (events : list Event) (p : Pattern.t) :
  In p (patterns (session (init None None dir) events)) ->
  Pattern.query_type p = _classify_query (Pattern.query p)
  /\ exists t, Pattern.query_type p = query_type_name t.
Proof.
  intros Hin.
  destruct (well_classified_session events (init None None dir)) as [Hall _].
  { split; constructor. }
  unfold well_classified in Hall. rewrite Forall_forall in Hall.
  assert (Hp : Pattern.query_type p = _classify_query (Pattern.query p)).
  { apply Hall, list_elem_of_In, Hin. }
  split; [exact Hp|].
  destruct (classify_refines (Pattern.query p)) as [t [Ht _]].
  exists t. congruence.
Qed.

(** One update of the average keeps it the mean, as long as the times are
    positive. *)
Lemma update_avg_positive (avg : Q) (n : nat) (sum t : Q) :
  (n = 0 /\ avg = 0%Q /\ (sum == 0)%Q)
  \/ (0 < n /\ (0 < avg)%Q /\ (avg * Qnat n == sum)%Q) ->
  (0 < t)%Q ->
  (0 < update_avg avg (n + 1) t)%Q
  /\ (update_avg avg (n + 1) t * Qnat (n + 1) == sum + t)%Q.
Proof.
  clear md5_hexdigest.
  intros Hinv Ht. destruct Hinv as [(Hn & Ha & Hs) | (Hn & Ha & Hs)].
  - rewrite Ha, update_avg_zero, Hn, Hs. split; [exact Ht|].
    unfold Qnat. simpl. ring.
  - rewrite update_avg_nonzero by (intros E; rewrite E in Ha; discriminate Ha).
    assert (Hn1 : (0 < Qnat (n + 1))%Q).
    { unfold Qnat, Qlt. simpl. lia. }
    assert (Hnn : (inject_Z (Z.of_nat (n + 1) - 1) == Qnat n)%Q).
    { unfold Qnat. replace (Z.of_nat (n + 1) - 1)%Z with (Z.of_nat n) by lia.
      reflexivity. }
    assert (Hnum : (avg * inject_Z (Z.of_nat (n + 1) - 1) + t == sum + t)%Q).
    { rewrite Hnn, Hs. reflexivity. }
    split.
    + apply Qlt_shift_div_l; [exact Hn1|]. rewrite Qmult_0_l, Hnn.
      assert (Hq : (0 <= Qnat n)%Q) by (unfold Qnat, Qle; simpl; lia).
      assert (Hp : (0 <= avg * Qnat n)%Q).
      { apply Qmult_le_0_compat; [apply Qlt_le_weak, Ha | exact Hq]. }
      lra.
    + rewrite <- Hnum. field. intros E. rewrite E in Hn1. discriminate Hn1.
Qed.

Lemma perform_quiet_avg (self : Memory) (c : Call) :
  recorded c = [] ->
  avg_response_time (stats (perform self c)) = avg_response_time (stats self).
Proof.
  destruct c as [q m s rt cc now|q|q now|q res now| |mx clock]; simpl;
    intros Hq; try discriminate Hq; try reflexivity.
  - destruct (get_cached_result_shape self q now) as [-> | [e ->]]; reflexivity.
  - rewrite cleanup_volatile_unfold. reflexivity.
Qed.

Lemma average_invariant (calls : list Call) :
  forall (self : Memory) (sum : Q),
    Forall (fun t => (0 < t)%Q) (times_of calls) ->
    (total_queries (stats self) = 0 /\ avg_response_time (stats self) = 0%Q
     /\ (sum == 0)%Q)
    \/ (0 < total_queries (stats self)
        /\ (0 < avg_response_time (stats self))%Q
        /\ (avg_response_time (stats self) * Qnat (total_queries (stats self))
            == sum)%Q) ->
    total_queries (stats (run self calls))
    = total_queries (stats self) + length (times_of calls)
    /\ (avg_response_time (stats (run self calls))
        * Qnat (total_queries (stats (run self calls)))
        == sum + fold_right Qplus 0 (times_of calls))%Q.
Proof.
  induction calls as [|c calls IH]; intros self sum Hpos Hinv.
  - simpl. split; [lia|]. rewrite Qplus_0_r.
    destruct Hinv as [(Hn & Ha & Hs) | (Hn & Ha & Hs)]; [|exact Hs].
    rewrite Ha, Hs. reflexivity.
  - change (run self (c :: calls)) with (run (perform self c) calls).
    destruct (recorded c) as [|p ps] eqn:Hrec.
    + destruct (perform_quiet self c Hrec) as (_ & Ht & _).
      pose proof (perform_quiet_avg self c Hrec) as Ha.
      assert (Htimes : times_of (c :: calls) = times_of calls).
      { destruct c; try discriminate Hrec; reflexivity. }
      rewrite Htimes in *.
      destruct (IH (perform self c) sum Hpos) as [IHt IHa].
      { rewrite Ht, Ha. exact Hinv. }
      rewrite IHt, Ht. split; [reflexivity|]. rewrite <- Ht. rewrite <- IHt.
      exact IHa.
    + destruct c as [q m s rt cc now|q|q now|q res now| |mx clock];
        try discriminate Hrec. clear Hrec.
      change (times_of (CallRemember q m s rt cc now :: calls))
        with (rt :: times_of calls) in *.
      apply Forall_cons in Hpos as [Hrt Hpos]. cbn [perform].
      destruct (update_avg_positive _ _ sum rt Hinv Hrt) as [Hp Hs].
      destruct (IH (remember_query self q m s rt cc now) (sum + rt)%Q Hpos)
        as [IHt IHa].
      { right. rewrite remember_query_total, remember_query_avg.
        split; [lia|]. split; assumption. }
      rewrite remember_query_total in IHt.
      split; [rewrite IHt; simpl; lia|].
      rewrite IHa. simpl. ring.
Qed.

(** X19. From a fresh memory, as long as every recorded response time is
    positive, [avg_response_time] is the arithmetic mean of the recorded
    response times, whatever other calls come between. *)
Theorem average_of_positive_times (calls : list Call) :
  times_of calls <> [] ->
  Forall (fun t => (0 < t)%Q) (times_of calls) ->
  (avg_response_time (stats (run fresh calls)) == mean (times_of calls))%Q.
Proof.
  intros Hne Hpos.
  destruct (average_invariant calls fresh 0%Q Hpos) as [Hlen Hsum].
  { left. repeat split. }
  simpl in Hlen. rewrite Hlen in Hsum.
  unfold mean. rewrite Qplus_0_l in Hsum. rewrite <- Hsum.
  field. intros E.
  assert (Hp : (0 < Qnat (length (times_of calls)))%Q).
  { unfold Qnat, Qlt. simpl. destruct (times_of calls); [congruence | simpl; lia]. }
  rewrite E in Hp. discriminate Hp.
Qed.

End ResearchMemory.

(** * Runs on the inputs of the repository's test scripts *)

Example classify_test_data :
  map _classify_query
      ["What is a transformer architecture?";
       "How to implement error handling in Python?";
       "Analyze the competitive landscape of AI tools";
       "Best practices for microservices";
       "Compare different database architectures"]
  = ["conceptual_explanation"; "technical_implementation";
     "comprehensive_analysis"; "recommendation"; "general_research"].
Proof. vm_compute. reflexivity. Qed.

Example suggest_three_of_five :
  suggest_method
    (@loaded string [success_record "how to sort" "A";
                     success_record "code review" "B";
                     success_record "an example" "A";
                     success_record "implement a heap" "B";
                     success_record "how to parse" "A"])
    "implement a queue" = None.
Proof. vm_compute. reflexivity. Qed.

Example suggest_tie_has_no_answer :
  best_method (@loaded string [success_record "how to sort" "B";
                               success_record "code review" "A";
                               success_record "an example" "A";
                               success_record "implement a heap" "B"])
              "implement a queue" = Some "B"
  /\ suggest_method
       (@loaded string [success_record "how to sort" "B";
                        success_record "code review" "A";
                        success_record "an example" "A";
                        success_record "implement a heap" "B"])
       "implement a queue" = None.
Proof. vm_compute. split; reflexivity. Qed.

(** * Instances

    The statements above hold for every fingerprint function and every
    payload type. The instances below take the identity as fingerprint and
    strings as payloads. *)

Lemma suggest_method_gate_witness :
  suggest_method
    (@loaded string
       [success_record "how to sort" "A";
        success_record "what is a heap" "B";
        Pattern.mk "implement a stack" (_classify_query "implement a stack")
                   "B" false 1 0 "";
        success_record "code review" "B";
        success_record "best editor" "B";
        success_record "an example" "A"])
    "implement a queue" = Some "A".
Proof.
  destruct (suggest_method_gate
              (@loaded string
                 [success_record "how to sort" "A";
                  success_record "what is a heap" "B";
                  Pattern.mk "implement a stack"
                             (_classify_query "implement a stack")
                             "B" false 1 0 "";
                  success_record "code review" "B";
                  success_record "best editor" "B";
                  success_record "an example" "A"])
              "implement a queue")
    as (_ & _ & _ & _ & _ & _ & _ & Htwo).
  apply Htwo; reflexivity.
Defined.

Lemma classify_total_deterministic_witness :
  exists t : QueryType,
    _classify_query "What is the best code?" = query_type_name t
    /\ classifies "What is the best code?" keyword_table t
    /\ (forall t', _classify_query "What is the best code?" = query_type_name t'
                   -> t' = t)
    /\ (forall t', classifies "What is the best code?" keyword_table t' -> t' = t).
Proof. exact (classify_total_deterministic "What is the best code?"). Defined.

Lemma cache_roundtrip_witness :
  fst (get_cached_result (fun q => q)
         (run (fun q => q)
              (cache_result (fun q => q) fresh "what is a monad" "a monoid" 100)
              [CallSuggest "what is a monad";
               CallCache "what is a functor" "a map" 200;
               CallCleanup 0 (fun _ => 5000%Q);
               CallGetCached "what is a monad" 300])
         "what is a monad" 3699)
  = Some "a monoid".
Proof.
  apply cache_roundtrip.
  - repeat constructor. discriminate.
  - reflexivity.
Defined.

Lemma get_cached_result_ttl_witness :
  fst (get_cached_result (fun q => q)
         (cache_result (fun q => q) fresh "what is a monad" "a monoid" 100)
         "what is a monad" 3701) = None
  /\ fst (get_cached_result (fun q => q)
            (cache_result (fun q => q) fresh "what is a monad" "a monoid" 100)
            "what is a monad" 3699) = Some "a monoid".
Proof.
  assert (Hsole : sole_entry (fun q => q)
                    (cache_result (fun q => q) fresh "what is a monad" "a monoid" 100)
                    "what is a monad"
                    (Cached.mk "what is a monad" "a monoid" 100 0)).
  { left. unfold cache_result. simpl. rewrite !lookup_insert_eq.
    split; [reflexivity|]. right. eexists. repeat split. }
  split.
  - apply (get_cached_result_ttl _ _ _ 3701 _ Hsole). reflexivity.
  - apply (get_cached_result_ttl _ _ _ 3699 _ Hsole). reflexivity.
Defined.

Lemma learner_threshold_witness :
  patterns_learned
    (stats (remember_query
              (@loaded string [success_record "how to sort" "A";
                               success_record "what is a heap" "A";
                               success_record "code review" "B"])
              "implement a queue" "A" true 2 0 "")) = 0
  /\ patterns_learned
       (stats (remember_query
                 (@loaded string [success_record "how to sort" "A";
                                  success_record "what is a heap" "B";
                                  success_record "an example" "A"])
                 "implement a queue" "A" true 2 0 "")) = 0 + 1.
Proof.
  split.
  - destruct (learner_threshold
                (@loaded string [success_record "how to sort" "A";
                                 success_record "what is a heap" "A";
                                 success_record "code review" "B"])
                "implement a queue" "A" true 2 0 "")
      as (_ & _ & _ & Hsame & _).
    apply Hsame. right. vm_compute. apply le_n.
  - destruct (learner_threshold
                (@loaded string [success_record "how to sort" "A";
                                 success_record "what is a heap" "B";
                                 success_record "an example" "A"])
                "implement a queue" "A" true 2 0 "")
      as (_ & _ & Hmore & _).
    apply Hmore; [reflexivity|]. vm_compute. apply le_n.
Defined.

Lemma cleanup_volatile_exact_witness :
  cache_dir
    (snd (cleanup_volatile
            (@restarted string {[ "k" := Cached.mk "q" "r" 0 0 ]})
            24 (fun _ => 90000%Q))) !! "k" = None.
Proof.
  destruct (cleanup_volatile_exact
              (@restarted string {[ "k" := Cached.mk "q" "r" 0 0 ]})
              24 (fun _ => 90000%Q)) as (_ & Hlookup & _).
  rewrite (Hlookup "k" (Cached.mk "q" "r" 0 0)).
  - reflexivity.
  - apply lookup_singleton_eq.
Defined.

Lemma pattern_log_append_only_witness :
  patterns
    (run (fun q => q) (@loaded string [success_record "how to sort" "A"])
         [CallRemember "what is a monad" "B" false 3 0 "";
          CallCleanup 0 (fun _ => 0%Q);
          CallInsights]) !! 0
  = Some (success_record "how to sort" "A").
Proof.
  apply (pattern_log_append_only (fun q => q)
           (@loaded string [success_record "how to sort" "A"])).
  reflexivity.
Defined.

Lemma get_cached_result_frame_witness :
  cache_hits
    (stats (snd (get_cached_result (fun q => q)
                   (@restarted string {[ "q" := Cached.mk "q" "r" 100 7 ]})
                   "q" 200)))
  = 0 + 1
  /\ cache (snd (get_cached_result (fun q => q)
                   (@restarted string {[ "q" := Cached.mk "q" "r" 100 7 ]})
                   "q" 200))
     = <[ "q" := Cached.mk "q" "r" 100 7 ]> ∅.
Proof.
  destruct (get_cached_result_frame (fun q => q)
              (@restarted string {[ "q" := Cached.mk "q" "r" 100 7 ]}) "q" 200)
    as (_ & _ & Hhydrate & _).
  destruct (Hhydrate (Cached.mk "q" "r" 100 7)) as (_ & Hc & Hh).
  - apply lookup_empty.
  - apply lookup_singleton_eq.
  - reflexivity.
  - split; [exact Hh | exact Hc].
Defined.

Lemma get_insights_empty_message_witness :
  get_insights (@fresh string) = [("message", VText "No patterns learned yet")]
  /\ Dict.keys (get_insights
                  (@loaded string [success_record "how to sort" "A"]))
     = report_fields.
Proof.
  split.
  - apply (get_insights_empty_message (@fresh string)). reflexivity.
  - apply (get_insights_empty_message
             (@loaded string [success_record "how to sort" "A"])).
    discriminate.
Defined.

(** * Instances of the further properties *)

Lemma get_cached_result_accounting_witness :
  cache_hits
    (stats (snd (get_cached_result (fun q => q)
                   (cache_result (fun q => q) fresh "q" "r" 0) "q" 10)))
  = 0 + 1.
Proof.
  destruct (get_cached_result_accounting (fun q => q)
              (cache_result (fun q => q) (@fresh string) "q" "r" 0) "q" 10)
    as [_ Hhit].
  apply (Hhit "r").
  rewrite (get_cached_result_memory (fun q => q) _ "q" 10 (Cached.mk "q" "r" 0 0)).
  - reflexivity.
  - apply lookup_insert_eq.
  - reflexivity.
Defined.

Lemma hit_counts_do_not_persist_witness :
  files_unhit
    (cache_dir (session (fun q => q) (@fresh string)
                        [Do (CallCache "q" "r" 0);
                         Do (CallGetCached "q" 1);
                         Restart;
                         Do (CallGetCached "q" 2)])).
Proof.
  apply (hit_counts_do_not_persist (fun q => q) (@fresh string)).
  intros k e Hk. simpl in Hk. rewrite lookup_empty in Hk. discriminate Hk.
Defined.

Lemma cache_survives_restart_witness :
  fst (get_cached_result (fun q => q)
         (restart (cache_result (fun q => q) fresh "q" "r" 100)) "q" 200)
  = Some "r".
Proof.
  destruct (cache_survives_restart (fun q => q)
              (cache_result (fun q => q) (@fresh string) "q" "r" 100)
              "q" (Cached.mk "q" "r" 100 0) 200) as [Hfresh _].
  - apply lookup_insert_eq.
  - apply Hfresh. reflexivity.
Defined.

Lemma cleanup_spares_fresh_entries_witness :
  cache_dir
    (snd (cleanup_volatile
            (@restarted string {[ "k" := Cached.mk "q" "r" 0 0 ]})
            1 (fun _ => 3599%Q))) !! "k"
  = Some (Cached.mk "q" "r" 0 0).
Proof.
  apply cleanup_spares_fresh_entries.
  - discriminate.
  - apply lookup_singleton_eq.
  - reflexivity.
Defined.

Lemma suggestion_unaffected_witness :
  suggest_method
    (perform (fun q => q)
       (@loaded string [success_record "how to sort" "A"])
       (CallRemember "implement a heap" "B" false 3 0 ""))
    "code review"
  = suggest_method (@loaded string [success_record "how to sort" "A"])
                   "code review".
Proof.
  apply (suggestion_unaffected (fun q => q)
           (@loaded string [success_record "how to sort" "A"])
           (CallRemember "implement a heap" "B" false 3 0 "")).
  left. reflexivity.
Defined.

Lemma unanimous_suggestion_witness :
  suggest_method
    (@loaded string [success_record "how to sort" "A";
                     success_record "what is a heap" "B";
                     success_record "an example" "A"])
    "code review" = Some "A".
Proof.
  apply unanimous_suggestion.
  - vm_compute. discriminate.
  - intros p Hp. vm_compute in Hp.
    destruct Hp as [<- | [<- | []]]; reflexivity.
Defined.

Lemma get_insights_tallies_witness :
  exists query_types,
    has_field "query_types" (VCounts query_types)
      (get_insights (@loaded string [success_record "how to sort" "A";
                                     success_record "what is a heap" "B"]))
    /\ Dict.get "technical_implementation" 0 query_types = 1.
Proof.
  destruct (get_insights_tallies
              (@loaded string [success_record "how to sort" "A";
                               success_record "what is a heap" "B"]))
    as (qts & prefs & _ & Hq & _ & Hc & _).
  - discriminate.
  - exists qts. split; [exact Hq|]. rewrite Hc. reflexivity.
Defined.

Lemma best_combinations_top_witness :
  exists top,
    has_field "best_combinations" (VCombos top)
      (get_insights (@loaded string [success_record "how to sort" "A";
                                     success_record "what is a heap" "B"]))
    /\ length top <= 3.
Proof.
  destruct (best_combinations_top
              (@loaded string [success_record "how to sort" "A";
                               success_record "what is a heap" "B"]))
    as (top & Hf & Hl & _).
  - discriminate.
  - exists top. split; assumption.
Defined.

Lemma detector_agrees_with_classifier_witness :
  _classify_query "How to implement a heap" = "technical_implementation"
  \/ (_classify_query "How to implement a heap" = "comprehensive_analysis"
      /\ Str.contains "comparison" (Str.lower "How to implement a heap") = true).
Proof.
  apply (detector_agrees_with_classifier
           (mkDecision "" "How to implement a heap" "openai_agents" false true 1 0)
         : _ /\ _ /\ _)
    with (p := mkDetected "technical_question" (75 # 100) "openai_agents");
    reflexivity.
Defined.

Lemma every_fifth_decision_is_logged_witness :
  evolution
    (record_all (mkDeepThink [] ∅) "2025-01-01"
       [mkRouted (mkContext "" "q" false) "openai_agents" None 1;
        mkRouted (mkContext "" "q" false) "openai_agents" None 1;
        mkRouted (mkContext "" "q" false) "openai_agents" None 1;
        mkRouted (mkContext "" "q" false) "openai_agents" None 1;
        mkRouted (mkContext "" "q" false) "openai_agents" (Some 3) 1])
    !! "2024-12-31-routing.json"
  = evolution (mkDeepThink [] ∅) !! "2024-12-31-routing.json".
Proof.
  apply (every_fifth_decision_is_logged "2025-01-01").
  discriminate.
Defined.

Lemma get_statistics_report_witness :
  get_statistics (mkDeepThink [] ∅)
  = [("message", SText "No research performed yet")].
Proof.
  apply (get_statistics_report (mkDeepThink [] ∅)). reflexivity.
Defined.

Lemma get_cached_result_never_stale_witness :
  exists e,
    (cache (cache_result (fun q => q) (@fresh string) "q" "r" 100) !! "q" = Some e
     \/ cache_dir (cache_result (fun q => q) (@fresh string) "q" "r" 100) !! "q"
        = Some e)
    /\ Cached.result e = "r"
    /\ (200 - Cached.timestamp e < 3600)%Q.
Proof.
  apply (get_cached_result_never_stale (fun q => q)
           (cache_result (fun q => q) (@fresh string) "q" "r" 100) "q" 200 "r").
  rewrite (get_cached_result_memory (fun q => q) _ "q" 200
             (Cached.mk "q" "r" 100 0)).
  - reflexivity.
  - apply lookup_insert_eq.
  - reflexivity.
Defined.

Lemma log_is_well_classified_witness :
  Pattern.query_type
    (Pattern.mk "What is a heap" "conceptual_explanation" "A" true 1 0 "t")
  = _classify_query
      (Pattern.query
         (Pattern.mk "What is a heap" "conceptual_explanation" "A" true 1 0 "t"))
  /\ exists t,
       Pattern.query_type
         (Pattern.mk "What is a heap" "conceptual_explanation" "A" true 1 0 "t")
       = query_type_name t.
Proof.
  apply (log_is_well_classified (fun q => q) (∅ : gmap string (Cached.t string))
           [Do (CallRemember "What is a heap" "A" true 1 0 "t")]).
  left. reflexivity.
Defined.

Lemma average_of_positive_times_witness :
  (avg_response_time
     (stats (run (fun q => q) (@fresh string)
                 [CallRemember "What is a heap" "A" true 10 0 "";
                  CallSuggest "What is a heap";
                  CallRemember "how to sort" "B" false 20 0 ""]))
   == mean [10; 20]%Q)%Q.
Proof.
  apply (average_of_positive_times (fun q => q)
           [CallRemember "What is a heap" "A" true 10 0 "";
            CallSuggest "What is a heap";
            CallRemember "how to sort" "B" false 20 0 ""]).
  - discriminate.
  - repeat constructor.
Defined.
